(** * Stroke-care backend: risk scoring, patient store, appointments, identities

    A shallow embedding of the Python sources under [stroke-backend/app]:
    the stroke-risk scorer ([services/patient_service.py], [models/patient.py]),
    the patient store on SQLAlchemy, the appointment service on MongoDB
    ([services/appointment_service.py], [routes/appointments.py]), the
    identity operations ([utils/database.py]) and the authentication routes
    ([routes/auth.py], [routes/patients.py]).

    Python values are dynamically typed, so request payloads and table rows
    are maps from field names to [pyval].  A finite float is represented by
    its exact rational value: the scorer only compares floats with integer
    literals, which Python does exactly.  NaN and the infinities are not
    represented.  Strings are byte strings (ASCII text). *)

From Stdlib Require Import ZArith QArith Ascii String List Bool Lia.
From stdpp Require Import base option gmap strings pretty list fin_maps.

Open Scope string_scope.
Open Scope list_scope.
Open Scope Z_scope.

(** ** Python values and exceptions *)

Inductive pyval : Type :=
| PNone
| PBool (b : bool)
| PInt (z : Z)
| PFloat (q : Q)
| PStr (s : string)
| PDatetime (t : Z).

#[global] Instance Q_eq_dec : EqDecision Q.
Proof. solve_decision. Defined.

#[global] Instance pyval_eq_dec : EqDecision pyval.
Proof. solve_decision. Defined.

Inductive exn : Type :=
| TypeError
| KeyError (key : string)
| AttributeError
| ValueError (message : string)
| IntegrityError
| PendingRollbackError
| ConnectionError.

(** The outcome of a call that may raise. *)
Inductive result (A : Type) : Type :=
| Ok (a : A)
| Raise (e : exn).
Arguments Ok {A} a.
Arguments Raise {A} e.

(** Sequencing: the first exception raised ends the computation. *)
Definition and_then {A B : Type} (m : result A) (k : A → result B) : result B :=
  match m with
  | Ok a => k a
  | Raise e => Raise e
  end.

Notation "x <~ m ; k" := (and_then m (fun x => k))
  (at level 20, m at level 100, k at level 200, only parsing).

Definition Qltb (x y : Q) : bool := (Qnum x * QDen y <? Qnum y * QDen x)%Z.

(** [bool(v)]: Python truthiness. *)
Definition truthy (v : pyval) : bool :=
  match v with
  | PNone => false
  | PBool b => b
  | PInt z => negb (z =? 0)
  | PFloat q => negb (Qeq_bool q 0)
  | PStr s => negb (String.eqb s "")
  | PDatetime _ => true
  end.

(** The numeric value of a number; [bool] is a subclass of [int]. *)
Definition as_num (v : pyval) : option Q :=
  match v with
  | PBool b => Some (inject_Z (Z.b2z b))
  | PInt z => Some (inject_Z z)
  | PFloat q => Some q
  | _ => None
  end.

(** [a > n], [a < n] for an integer literal [n]: numbers compare by value,
    anything else raises [TypeError]. *)
Definition py_gt_int (a : pyval) (n : Z) : result bool :=
  match a with
  | PBool b => Ok (n <? Z.b2z b)
  | PInt z => Ok (n <? z)
  | PFloat q => Ok (Qltb (inject_Z n) q)
  | _ => Raise TypeError
  end.

Definition py_lt_int (a : pyval) (n : Z) : result bool :=
  match a with
  | PBool b => Ok (Z.b2z b <? n)
  | PInt z => Ok (z <? n)
  | PFloat q => Ok (Qltb q (inject_Z n))
  | _ => Raise TypeError
  end.

(** [a == b]: never raises; numbers compare by value across int, float and
    bool, other values only with their own kind. *)
Definition py_eq (a b : pyval) : bool :=
  match as_num a, as_num b with
  | Some x, Some y => Qeq_bool x y
  | _, _ =>
      match a, b with
      | PNone, PNone => true
      | PStr s, PStr s' => String.eqb s s'
      | PDatetime t, PDatetime t' => t =? t'
      | _, _ => false
      end
  end.

(** [v in [x1, ..., xn]] *)
Definition py_in (v : pyval) (l : list pyval) : bool := existsb (py_eq v) l.

(** [d.get(key, default)] and [d[key]] on a dict. *)
Definition dict_get (d : gmap string pyval) (key : string) (dflt : pyval) : pyval :=
  default dflt (d !! key).

Definition dict_item (d : gmap string pyval) (key : string) : result pyval :=
  match d !! key with
  | Some v => Ok v
  | None => Raise (KeyError key)
  end.

(** ** The Python runtime and the third-party libraries

    What the sources call in the standard library and in third-party
    packages ([re], [datetime], [bcrypt], [jwt], [bson]) is a parameter of the
    development: every theorem holds for every implementation of this
    interface. *)

Class PyLib : Type := {
  (** [str(v)] *)
  py_str : pyval → string;
  (** [int(s)] and [float(s)] on a string; [None] when they raise [ValueError] *)
  int_of_str : string → option Z;
  float_of_str : string → option Q;
  (** [int(x)] on a float: truncation towards zero *)
  int_of_float : Q → Z;
  (** [s.strip()] *)
  str_strip : string → string;
  (** [re.sub(pattern, '', s)], the flag is [re.IGNORECASE] *)
  re_sub_empty : string → bool → string → string;
  (** [re.match(pattern, s) is not None] and [re.search(pattern, s)] as a bool *)
  re_match : string → string → bool;
  re_search : string → string → bool;
  (** [datetime.strptime(s, '%Y-%m-%d').date()], as the day number
      [toordinal()] that [date] comparison goes by; [None] on [ValueError] *)
  strptime_date : string → option Z;
  (** [datetime.strptime(s, '%H:%M').time()], in minutes *)
  strptime_time : string → option Z;
  (** [dt.isoformat()] *)
  isoformat : Z → string;
  (** [bcrypt.generate_password_hash(p).decode('utf-8')] and
      [bcrypt.check_password_hash(h, p)], which raises on a non-string *)
  generate_password_hash : string → string;
  check_password_hash : string → pyval → result bool;
  (** [jwt.encode({'user_id': .., 'username': .., 'role': .., 'exp': ..}, key)] *)
  jwt_encode : pyval → string → string → Z → string;
  (** [ObjectId(s)], [None] when it raises [InvalidId], and [str(oid)] *)
  object_id : string → option N;
  object_id_str : N → string
}.

Section Runtime.
Context `{PyLib}.

(** [int(v)], [float(v)]: [None] stands for [TypeError] or [ValueError]. *)
Definition py_int (v : pyval) : option Z :=
  match v with
  | PBool b => Some (Z.b2z b)
  | PInt z => Some z
  | PFloat q => Some (int_of_float q)
  | PStr s => int_of_str s
  | PNone | PDatetime _ => None
  end.

Definition py_float (v : pyval) : option Q :=
  match v with
  | PBool b => Some (inject_Z (Z.b2z b))
  | PInt z => Some (inject_Z z)
  | PFloat q => Some q
  | PStr s => float_of_str s
  | PNone | PDatetime _ => None
  end.

(** *** [utils/security.py] *)

Definition validate_email (email : string) : bool :=
  re_match "^[a-zA-Z0-9._%+-]+@[a-zA-Z0-9.-]+\.[a-zA-Z]{2,}$" email.

Definition validate_password (password : string) : bool * string :=
  if (Z.of_nat (String.length password) <? 8)
  then (false, "Password must be at least 8 characters long")
  else if negb (re_search "[A-Z]" password)
  then (false, "Password must contain at least one uppercase letter")
  else if negb (re_search "[a-z]" password)
  then (false, "Password must contain at least one lowercase letter")
  else if negb (re_search "[0-9]" password)
  then (false, "Password must contain at least one number")
  else (true, "Password is valid").

Definition sanitize_input (input_string : pyval) : pyval :=
  if negb (truthy input_string) then input_string
  else
    let sanitized := re_sub_empty "[<>]" false (py_str input_string) in
    let sanitized := re_sub_empty "javascript:" true sanitized in
    let sanitized := re_sub_empty "on\w+=" true sanitized in
    PStr (str_strip sanitized).

End Runtime.

(** ** The relational store (SQLAlchemy on SQLite) *)

(** A row of [users]; [id] is an integer in SQLite and the string of an
    object id in MongoDB. *)
Record User : Type := {
  user_id : pyval;
  username : string;
  email : string;
  password_hash : string;
  role : string;
  first_name : string;
  last_name : string;
  phone : pyval;
  specialization : pyval;
  license_number : pyval;
  is_active : bool;
  user_created_at : Z;
  last_login : option Z
}.

(** A row of [security_logs]. *)
Record SecurityLog : Type := {
  log_id : Z;
  event_type : string;
  event_description : string;
  log_user_id : pyval;
  log_username : pyval;
  user_role : pyval;
  target_user_id : pyval;
  target_username : pyval;
  target_type : pyval;
  target_id : pyval;
  ip_address : pyval;
  user_agent : pyval;
  log_status : string;
  severity : string;
  additional_data : pyval;
  log_created_at : Z
}.

(** The tables.  A row of [patients] maps each column name to its value. *)
Record Database : Type := {
  users : list User;
  patients : list (gmap string pyval);
  security_logs : list SecurityLog
}.

Definition patient_columns : list string :=
  ["id"; "gender"; "age"; "hypertension"; "heart_disease"; "ever_married";
   "work_type"; "Residence_type"; "avg_glucose_level"; "bmi"; "smoking_status";
   "stroke"; "stroke_risk"; "risk_level"; "created_by"; "assigned_doctor_id";
   "created_at"; "updated_at"].

(** The columns declared [nullable=False]. *)
Definition patient_not_null : list string :=
  ["gender"; "age"; "hypertension"; "heart_disease"; "ever_married";
   "work_type"; "Residence_type"; "avg_glucose_level"; "bmi"; "smoking_status";
   "stroke"].

(** [row.column]: an attribute never assigned reads [None]. *)
Definition column (row : gmap string pyval) (name : string) : pyval :=
  default PNone (row !! name).

Definition int_ids (ids : list pyval) : list Z :=
  omap (λ v, match v with PInt n => Some n | _ => None end) ids.

(** The key SQLite gives to an inserted row: one more than the largest. *)
Definition next_id (ids : list pyval) : Z := 1 + foldr Z.max 0 (int_ids ids).

(** What a flush sends to the database. *)
Inductive change : Type :=
| InsertUser (u : User)
| DeleteUser (id : pyval)
| UpdateUser (u : User)
| InsertPatient (row : gmap string pyval)
| UpdatePatient (position : nat) (row : gmap string pyval)
| DeletePatient (position : nat)
| InsertSecurityLog (entry : SecurityLog).

Definition is_datetime_or_null (v : pyval) : bool :=
  match v with
  | PDatetime _ | PNone => true
  | _ => false
  end.

(** The constraints the database checks on a patient row: the [NOT NULL]
    columns, and values a [DateTime] column can bind. *)
Definition patient_row_ok (row : gmap string pyval) : bool :=
  forallb (λ name, match column row name with PNone => false | _ => true end)
          patient_not_null
  && is_datetime_or_null (column row "created_at")
  && is_datetime_or_null (column row "updated_at").

(** [users.username] and [users.email] are [unique=True]. *)
Definition user_unique (table : list User) (u : User) : bool :=
  forallb (λ u', negb (String.eqb (username u') (username u))
                 && negb (String.eqb (email u') (email u))) table.

Definition set_user_id (id : pyval) (u : User) : User :=
  {| user_id := id; username := username u; email := email u;
     password_hash := password_hash u; role := role u;
     first_name := first_name u; last_name := last_name u; phone := phone u;
     specialization := specialization u; license_number := license_number u;
     is_active := is_active u; user_created_at := user_created_at u;
     last_login := last_login u |}.

Definition set_last_login (t : Z) (u : User) : User :=
  {| user_id := user_id u; username := username u; email := email u;
     password_hash := password_hash u; role := role u;
     first_name := first_name u; last_name := last_name u; phone := phone u;
     specialization := specialization u; license_number := license_number u;
     is_active := is_active u; user_created_at := user_created_at u;
     last_login := Some t |}.

Definition set_log_id (id : Z) (now : Z) (e : SecurityLog) : SecurityLog :=
  {| log_id := id; event_type := event_type e;
     event_description := event_description e; log_user_id := log_user_id e;
     log_username := log_username e; user_role := user_role e;
     target_user_id := target_user_id e; target_username := target_username e;
     target_type := target_type e; target_id := target_id e;
     ip_address := ip_address e; user_agent := user_agent e;
     log_status := log_status e; severity := severity e;
     additional_data := additional_data e; log_created_at := now |}.

(** [User.query.filter_by(username=name).first()] and the same by email. *)
Definition has_username (name : string) (u : User) : bool :=
  String.eqb (username u) name.

Definition has_email (address : string) (u : User) : bool :=
  String.eqb (email u) address.

Definition has_id (id : pyval) (u : User) : bool := py_eq (user_id u) id.

Definition filter_by_username (table : list User) (name : string) : option User :=
  List.find (has_username name) table.

Definition filter_by_email (table : list User) (address : string) : option User :=
  List.find (has_email address) table.

(** One statement of a flush at time [now]; [None] when the database
    refuses it. *)
Definition apply_change (now : Z) (db : Database) (c : change) : option Database :=
  match c with
  | InsertUser u =>
      if user_unique (users db) u
      then Some {| users := users db
                     ++ [set_user_id (PInt (next_id (user_id <$> users db))) u];
                   patients := patients db; security_logs := security_logs db |}
      else None
  | DeleteUser id =>
      Some {| users := filter (λ u, py_eq (user_id u) id = false) (users db);
              patients := patients db; security_logs := security_logs db |}
  | UpdateUser u =>
      Some {| users := (λ u', if py_eq (user_id u') (user_id u) then u else u')
                       <$> users db;
              patients := patients db; security_logs := security_logs db |}
  | InsertPatient row =>
      let row := <["id" := PInt (next_id ((λ r, column r "id") <$> patients db))]>
                 (<["created_at" := PDatetime now]>
                 (<["updated_at" := PDatetime now]> row)) in
      if patient_row_ok row
      then Some {| users := users db; patients := patients db ++ [row];
                   security_logs := security_logs db |}
      else None
  | UpdatePatient position row =>
      let others := delete position (patients db) in
      if patient_row_ok row
         && match column row "id" with
            | PInt n => forallb (λ r, negb (py_eq (column r "id") (PInt n))) others
            | _ => false
            end
      then Some {| users := users db; patients := <[position := row]> (patients db);
                   security_logs := security_logs db |}
      else None
  | DeletePatient position =>
      Some {| users := users db; patients := delete position (patients db);
              security_logs := security_logs db |}
  | InsertSecurityLog entry =>
      Some {| users := users db; patients := patients db;
              security_logs := security_logs db
                ++ [set_log_id (next_id ((λ e, PInt (log_id e)) <$> security_logs db))
                               now entry] |}
  end.

Fixpoint flush (now : Z) (db : Database) (pending : list change) : option Database :=
  match pending with
  | [] => Some db
  | c :: rest =>
      match apply_change now db c with
      | Some db' => flush now db' rest
      | None => None
      end
  end.

(** The SQLAlchemy session of one request: the database, the changes not
    flushed yet, and whether a failed flush has left the transaction
    inactive.  In that state every [commit()] raises until [rollback()] is
    called. *)
Record Session : Type := {
  store : Database;
  pending : list change;
  inactive : bool
}.

(** [db.session.add(obj)], [db.session.delete(obj)], an attribute assignment
    on a loaded object: recorded until the next flush. *)
Definition session_record (c : change) (s : Session) : Session :=
  {| store := store s; pending := pending s ++ [c]; inactive := inactive s |}.

(** [db.session.commit()] *)
Definition session_commit (now : Z) (s : Session) : Session * result unit :=
  if inactive s then (s, Raise PendingRollbackError)
  else match flush now (store s) (pending s) with
       | Some db' => ({| store := db'; pending := []; inactive := false |}, Ok tt)
       | None => ({| store := store s; pending := []; inactive := true |},
                  Raise IntegrityError)
       end.

(** [db.session.rollback()] *)
Definition session_rollback (s : Session) : Session :=
  {| store := store s; pending := []; inactive := false |}.

(** The end of the request: Flask-SQLAlchemy removes the session, what was
    not committed is lost and the next request starts afresh. *)
Definition session_remove (s : Session) : Session :=
  {| store := store s; pending := []; inactive := false |}.

(** ** Configuration ([config.py]) *)

Module Config.
Definition USE_MONGODB : bool := false.
Definition STROKE_RISK_THRESHOLD_HIGH : Z := 50.
Definition STROKE_RISK_THRESHOLD_MEDIUM : Z := 25.
End Config.

(** ** Patient objects ([models/patient_sqllite.py])

    A loaded [PatientSQLite] object: the mapped column attributes, and the
    instance attribute that an assignment to the name [to_dict] creates, which
    then hides the method.  Attributes inherited from [db.Model] are not
    represented. *)

Record PatientSQLite : Type := {
  attrs : gmap string pyval;
  to_dict_attr : option pyval
}.

Definition load_patient (row : gmap string pyval) : PatientSQLite :=
  {| attrs := row; to_dict_attr := None |}.

Definition hasattr (key : string) : bool :=
  bool_decide (key ∈ patient_columns) || String.eqb key "to_dict".

Definition setattr (patient : PatientSQLite) (key : string) (value : pyval)
  : PatientSQLite :=
  if String.eqb key "to_dict"
  then {| attrs := attrs patient; to_dict_attr := Some value |}
  else {| attrs := <[key := value]> (attrs patient);
          to_dict_attr := to_dict_attr patient |}.

(** [PatientSQLite.query.get(patient_id)]: the position and the row. *)
Definition query_get (table : list (gmap string pyval)) (patient_id : pyval)
  : option (nat * gmap string pyval) :=
  list_find (λ row, py_eq (column row "id") patient_id = true) table.

Section PatientModel.
Context `{PyLib}.

Definition datetime_isoformat (v : pyval) : result pyval :=
  match v with
  | PDatetime t => Ok (PStr (isoformat t))
  | _ => Raise AttributeError
  end.

Definition to_dict (patient : PatientSQLite) : result (gmap string pyval) :=
  match to_dict_attr patient with
  | Some _ => Raise TypeError
  | None =>
      let self := attrs patient in
      created_at <~ datetime_isoformat (column self "created_at");
      updated_at <~ datetime_isoformat (column self "updated_at");
      Ok (list_to_map
            [("id", column self "id");
             ("gender", column self "gender");
             ("age", column self "age");
             ("hypertension", column self "hypertension");
             ("heart_disease", column self "heart_disease");
             ("ever_married", column self "ever_married");
             ("work_type", column self "work_type");
             ("Residence_type", column self "Residence_type");
             ("avg_glucose_level", column self "avg_glucose_level");
             ("bmi", column self "bmi");
             ("smoking_status", column self "smoking_status");
             ("stroke", column self "stroke");
             ("stroke_risk", column self "stroke_risk");
             ("risk_level", column self "risk_level");
             ("created_by", column self "created_by");
             ("assigned_doctor_id", column self "assigned_doctor_id");
             ("created_at", created_at);
             ("updated_at", updated_at)])
  end.

End PatientModel.

(** [models/patient_mongodb.py]: the placeholder that never connects. *)
Module PatientRecordMongo.
Definition is_connected : bool := false.
Definition create_patient (patient_data : gmap string pyval) : pyval := PNone.
Definition update_patient (patient_id : pyval) (update_data : gmap string pyval)
  : bool := false.
End PatientRecordMongo.

(** The fields whose presence in a patch makes [update_patient] recompute the
    risk. *)
Definition risk_trigger_fields : list string :=
  ["age"; "hypertension"; "heart_disease"; "avg_glucose_level"; "bmi";
   "smoking_status"].

(** ** Risk scoring

    The scorer is written three times in the sources, in
    [PatientService], [PatientRecord] and [PatientRecordMongo]; the three
    bodies of [calculate_stroke_risk] are the same statements. *)

Module PatientService.

Definition calculate_stroke_risk (patient_data : gmap string pyval) : result Z :=
  let risk_score := 0 in
  let age := dict_get patient_data "age" (PInt 0) in
  gt60 <~ py_gt_int age 60;
  risk_score <~ (if gt60 then Ok (risk_score + 30)
                else gt45 <~ py_gt_int age 45;
                     Ok (if gt45 then risk_score + 15 else risk_score))
 ;
  let risk_score :=
    if py_eq (dict_get patient_data "hypertension" (PInt 0)) (PInt 1)
    then risk_score + 25 else risk_score in
  let risk_score :=
    if py_eq (dict_get patient_data "heart_disease" (PInt 0)) (PInt 1)
    then risk_score + 20 else risk_score in
  let glucose_level := dict_get patient_data "avg_glucose_level" (PInt 0) in
  gt150 <~ py_gt_int glucose_level 150;
  risk_score <~ (if gt150 then Ok (risk_score + 15)
                else gt120 <~ py_gt_int glucose_level 120;
                     Ok (if gt120 then risk_score + 8 else risk_score))
 ;
  let bmi := dict_get patient_data "bmi" (PInt 0) in
  gt30 <~ py_gt_int bmi 30;
  risk_score <~ (if gt30 then Ok (risk_score + 10)
                else gt25 <~ py_gt_int bmi 25;
                     Ok (if gt25 then risk_score + 5 else risk_score))
 ;
  let smoking_status := dict_get patient_data "smoking_status" (PStr "Unknown") in
  let risk_score :=
    if py_eq smoking_status (PStr "Smokes") then risk_score + 10
    else if py_eq smoking_status (PStr "Formerly smoked") then risk_score + 5
    else risk_score in
  let risk_score :=
    if py_eq (dict_get patient_data "stroke" (PInt 0)) (PInt 1)
    then risk_score + 30 else risk_score in
  Ok (Z.min risk_score 100).

Definition get_risk_level (risk_score : Z) : string :=
  if 50 <=? risk_score then "high"
  else if 25 <=? risk_score then "medium"
  else "low".

Section SQLite.
Context `{PyLib}.

Definition use_mongodb : bool :=
  Config.USE_MONGODB && PatientRecordMongo.is_connected.

Definition _coerce_sqlite_id (patient_id : pyval) : pyval :=
  match py_int patient_id with
  | Some n => PInt n
  | None => patient_id
  end.

Definition _create_patient_sqlite (now : Z) (s : Session)
    (patient_data : gmap string pyval) : Session * result pyval :=
  let built :=
    stroke_risk <~ calculate_stroke_risk patient_data;
    let risk_level := get_risk_level stroke_risk in
    gender <~ dict_item patient_data "gender";
    age <~ dict_item patient_data "age";
    hypertension <~ dict_item patient_data "hypertension";
    heart_disease <~ dict_item patient_data "heart_disease";
    ever_married <~ dict_item patient_data "ever_married";
    work_type <~ dict_item patient_data "work_type";
    Residence_type <~ dict_item patient_data "Residence_type";
    avg_glucose_level <~ dict_item patient_data "avg_glucose_level";
    bmi <~ dict_item patient_data "bmi";
    smoking_status <~ dict_item patient_data "smoking_status";
    stroke <~ dict_item patient_data "stroke";
    Ok (list_to_map
          [("gender", gender); ("age", age); ("hypertension", hypertension);
           ("heart_disease", heart_disease); ("ever_married", ever_married);
           ("work_type", work_type); ("Residence_type", Residence_type);
           ("avg_glucose_level", avg_glucose_level); ("bmi", bmi);
           ("smoking_status", smoking_status); ("stroke", stroke);
           ("stroke_risk", PInt stroke_risk); ("risk_level", PStr risk_level);
           ("created_by", dict_get patient_data "created_by" PNone);
           ("assigned_doctor_id",
            dict_get patient_data "assigned_doctor_id" PNone)]
        : gmap string pyval) in
  match built with
  | Raise e => (s, Raise e)
  | Ok patient =>
      let s := session_record (InsertPatient patient) s in
      let patient_id := next_id ((λ r, column r "id") <$> patients (store s)) in
      match session_commit now s with
      | (s, Raise e) => (s, Raise e)
      | (s, Ok _) => (s, Ok (PInt patient_id))
      end
  end.

Definition create_patient (now : Z) (s : Session)
    (patient_data : gmap string pyval) : Session * result pyval :=
  if use_mongodb
  then (s, Ok (PatientRecordMongo.create_patient patient_data))
  else _create_patient_sqlite now s patient_data.

Definition _update_patient_sqlite (now : Z) (s : Session) (patient_id : pyval)
    (update_data : gmap string pyval) : Session * result bool :=
  let patient_id := _coerce_sqlite_id patient_id in
  match query_get (patients (store s)) patient_id with
  | None => (s, Ok false)
  | Some (position, row) =>
      let patient := load_patient row in
      let patient :=
        map_fold (λ key value patient,
                    if hasattr key then setattr patient key value else patient)
                 patient update_data in
      let recomputed :=
        if existsb (λ field, bool_decide (is_Some (update_data !! field)))
                   risk_trigger_fields
        then
          patient_data <~ to_dict patient;
          let patient_data := update_data ∪ patient_data in
          stroke_risk <~ calculate_stroke_risk patient_data;
          let patient := setattr patient "stroke_risk" (PInt stroke_risk) in
          Ok (setattr patient "risk_level" (PStr (get_risk_level stroke_risk)))
        else Ok patient in
      match recomputed with
      | Raise e => (s, Raise e)
      | Ok patient =>
          let patient := setattr patient "updated_at" (PDatetime now) in
          let s := session_record (UpdatePatient position (attrs patient)) s in
          match session_commit now s with
          | (s, Raise e) => (s, Raise e)
          | (s, Ok _) => (s, Ok true)
          end
      end
  end.

Definition update_patient (now : Z) (s : Session) (patient_id : pyval)
    (update_data : gmap string pyval) : Session * result bool :=
  if use_mongodb
  then (s, Ok (PatientRecordMongo.update_patient patient_id update_data))
  else _update_patient_sqlite now s patient_id update_data.

Definition _get_patient_sqlite (s : Session) (patient_id : pyval)
  : result (option (gmap string pyval)) :=
  let patient_id := _coerce_sqlite_id patient_id in
  match query_get (patients (store s)) patient_id with
  | None => Ok None
  | Some (_, row) => d <~ to_dict (load_patient row); Ok (Some d)
  end.

End SQLite.

End PatientService.

Module PatientRecord.

Definition calculate_stroke_risk (patient_data : gmap string pyval) : result Z :=
  let risk_score := 0 in
  (* Age factor *)
  let age := dict_get patient_data "age" (PInt 0) in
  gt60 <~ py_gt_int age 60;
  risk_score <~ (if gt60 then Ok (risk_score + 30)
                else gt45 <~ py_gt_int age 45;
                     Ok (if gt45 then risk_score + 15 else risk_score))
 ;
  (* Medical conditions *)
  let risk_score :=
    if py_eq (dict_get patient_data "hypertension" (PInt 0)) (PInt 1)
    then risk_score + 25 else risk_score in
  let risk_score :=
    if py_eq (dict_get patient_data "heart_disease" (PInt 0)) (PInt 1)
    then risk_score + 20 else risk_score in
  (* Lifestyle factors *)
  let glucose_level := dict_get patient_data "avg_glucose_level" (PInt 0) in
  gt150 <~ py_gt_int glucose_level 150;
  risk_score <~ (if gt150 then Ok (risk_score + 15)
                else gt120 <~ py_gt_int glucose_level 120;
                     Ok (if gt120 then risk_score + 8 else risk_score))
 ;
  let bmi := dict_get patient_data "bmi" (PInt 0) in
  gt30 <~ py_gt_int bmi 30;
  risk_score <~ (if gt30 then Ok (risk_score + 10)
                else gt25 <~ py_gt_int bmi 25;
                     Ok (if gt25 then risk_score + 5 else risk_score))
 ;
  let smoking_status := dict_get patient_data "smoking_status" (PStr "Unknown") in
  let risk_score :=
    if py_eq smoking_status (PStr "Smokes") then risk_score + 10
    else if py_eq smoking_status (PStr "Formerly smoked") then risk_score + 5
    else risk_score in
  (* Previous stroke *)
  let risk_score :=
    if py_eq (dict_get patient_data "stroke" (PInt 0)) (PInt 1)
    then risk_score + 30 else risk_score in
  Ok (Z.min risk_score 100).

(** The thresholds are read from the configuration object. *)
Definition get_risk_level_with (threshold_high threshold_medium risk_score : Z) : string :=
  if threshold_high <=? risk_score then "high"
  else if threshold_medium <=? risk_score then "medium"
  else "low".

Definition get_risk_level (risk_score : Z) : string :=
  get_risk_level_with Config.STROKE_RISK_THRESHOLD_HIGH
                      Config.STROKE_RISK_THRESHOLD_MEDIUM risk_score.

Section SQLite.
Context `{PyLib}.

Definition update_patient (now : Z) (s : Session) (patient_id : pyval)
    (update_data : gmap string pyval) : Session * result bool :=
  (* Retrieve patient from database *)
  match query_get (patients (store s)) patient_id with
  | None => (s, Ok false)
  | Some (position, row) =>
      let patient := load_patient row in
      (* Update fields *)
      let patient :=
        map_fold (λ key value patient,
                    if hasattr key then setattr patient key value else patient)
                 patient update_data in
      (* Recalculate stroke risk if medical data changed *)
      let recomputed :=
        if existsb (λ field, bool_decide (is_Some (update_data !! field)))
                   risk_trigger_fields
        then
          patient_data <~ to_dict patient;
          let patient_data := update_data ∪ patient_data in
          stroke_risk <~ calculate_stroke_risk patient_data;
          let patient := setattr patient "stroke_risk" (PInt stroke_risk) in
          Ok (setattr patient "risk_level" (PStr (get_risk_level stroke_risk)))
        else Ok patient in
      match recomputed with
      | Raise e => (s, Raise e)
      | Ok patient =>
          let patient := setattr patient "updated_at" (PDatetime now) in
          let s := session_record (UpdatePatient position (attrs patient)) s in
          match session_commit now s with
          | (s, Raise e) => (s, Raise e)
          | (s, Ok _) => (s, Ok true)
          end
      end
  end.

End SQLite.

End PatientRecord.

(** The order of the three tiers. *)
Definition tier_rank (level : string) : Z :=
  if String.eqb level "high" then 2
  else if String.eqb level "medium" then 1
  else 0.

(** *** The scoring table as the specification words it

    A patient in the documented domain: [age] an integer, the three flags
    integers, glucose and BMI floats, the smoking status a string; every
    field may be absent. *)

Record PatientAttributes : Type := {
  attr_age : option Z;
  attr_hypertension : option Z;
  attr_heart_disease : option Z;
  attr_avg_glucose_level : option Q;
  attr_bmi : option Q;
  attr_smoking_status : option string;
  attr_stroke : option Z
}.

Definition age_points (age : Z) : Z :=
  if decide (60 < age) then 30
  else if decide (45 < age ∧ age ≤ 60) then 15
  else 0.

Definition flag_points (weight flag : Z) : Z :=
  if decide (flag = 1) then weight else 0.

Definition glucose_points (level : Q) : Z :=
  if Qlt_le_dec (inject_Z 150) level then 15
  else if Qlt_le_dec (inject_Z 120) level then 8
  else 0.

Definition bmi_points (bmi : Q) : Z :=
  if Qlt_le_dec (inject_Z 30) bmi then 10
  else if Qlt_le_dec (inject_Z 25) bmi then 5
  else 0.

Definition smoking_points (status : string) : Z :=
  if decide (status = "Smokes") then 10
  else if decide (status = "Formerly smoked") then 5
  else 0.

(** An absent field contributes its no-risk value. *)
Definition points {A : Type} (f : A → Z) (field : option A) : Z :=
  match field with
  | Some x => f x
  | None => 0
  end.

Definition table_score (a : PatientAttributes) : Z :=
  Z.min 100
    (points age_points (attr_age a)
     + points (flag_points 25) (attr_hypertension a)
     + points (flag_points 20) (attr_heart_disease a)
     + points glucose_points (attr_avg_glucose_level a)
     + points bmi_points (attr_bmi a)
     + points smoking_points (attr_smoking_status a)
     + points (flag_points 30) (attr_stroke a)).

Definition put_field (key : string) (field : option pyval)
    (d : gmap string pyval) : gmap string pyval :=
  match field with
  | Some v => <[key := v]> d
  | None => d
  end.

(** The dict a caller passes for these attributes. *)
Definition attributes_dict (a : PatientAttributes) : gmap string pyval :=
  put_field "age" (PInt <$> attr_age a)
  (put_field "hypertension" (PInt <$> attr_hypertension a)
  (put_field "heart_disease" (PInt <$> attr_heart_disease a)
  (put_field "avg_glucose_level" (PFloat <$> attr_avg_glucose_level a)
  (put_field "bmi" (PFloat <$> attr_bmi a)
  (put_field "smoking_status" (PStr <$> attr_smoking_status a)
  (put_field "stroke" (PInt <$> attr_stroke a) ∅)))))).


(** ** Requests, responses and the application log *)

(** A JSON response body. *)
#[warnings="-register-all"]
Inductive json : Type :=
| JVal (v : pyval)
| JObj (fields : list (string * json))
| JList (items : list json).

Record response : Type := {
  status : Z;
  body : list (string * json)
}.

(** [jsonify({'message': text}), code] *)
Definition message_response (code : Z) (text : string) : response :=
  {| status := code; body := [("message", JVal (PStr text))] |}.

Definition json_of_dict (d : gmap string pyval) : json :=
  JObj (prod_map id JVal <$> map_to_list d).

(** A record of [current_app.logger]: the line [log_security_event] writes
    with [logger.info], and the line an exception handler writes with
    [logger.error]. *)
Inductive log_record : Type :=
| SecurityEventLine (user_id : pyval) (event_type description : string)
                    (ip_address : pyval)
| ErrorLine (context : string) (e : exn).

(** The state between requests: the relational database behind the
    SQLAlchemy session, the configured backend of the identities, the two
    MongoDB collections ([users] under their object ids, [appointments] in
    insertion order; [None] when the client could not connect) and the
    application log. *)
Record World : Type := {
  session : Session;
  use_mongodb_users : bool;
  mongo_users : list (N * User);
  appointments : option (list (N * gmap string pyval));
  app_log : list log_record
}.

Definition sql (w : World) : Database := store (session w).

Definition with_session (s : Session) (w : World) : World :=
  {| session := s; use_mongodb_users := use_mongodb_users w;
     mongo_users := mongo_users w; appointments := appointments w;
     app_log := app_log w |}.

Definition with_mongo_users (table : list (N * User)) (w : World) : World :=
  {| session := session w; use_mongodb_users := use_mongodb_users w;
     mongo_users := table; appointments := appointments w;
     app_log := app_log w |}.

Definition with_appointments (c : option (list (N * gmap string pyval)))
    (w : World) : World :=
  {| session := session w; use_mongodb_users := use_mongodb_users w;
     mongo_users := mongo_users w; appointments := c; app_log := app_log w |}.

Definition logged (r : log_record) (w : World) : World :=
  {| session := session w; use_mongodb_users := use_mongodb_users w;
     mongo_users := mongo_users w; appointments := appointments w;
     app_log := app_log w ++ [r] |}.

(** The world in which a request starts, over a database. *)
Definition world_of (db : Database) : World :=
  {| session := {| store := db; pending := []; inactive := false |};
     use_mongodb_users := false; mongo_users := []; appointments := Some [];
     app_log := [] |}.

(** ** [utils/validation.py] *)

Definition out_of_range (v : pyval) (low high : Z) : result bool :=
  match v with
  | PNone => Ok true
  | _ =>
      below <~ py_lt_int v low;
      if below then Ok true else py_gt_int v high
  end.

Definition validate_patient_data (patient_data : gmap string pyval)
  : result (list string) :=
  let errors : list string := [] in
  let age := dict_get patient_data "age" PNone in
  bad <~ out_of_range age 0 120;
  let errors := if bad then errors ++ ["Age must be between 0 and 120"] else errors in
  let bmi := dict_get patient_data "bmi" PNone in
  bad <~ out_of_range bmi 10 60;
  let errors := if bad then errors ++ ["BMI must be between 10 and 60"] else errors in
  let glucose := dict_get patient_data "avg_glucose_level" PNone in
  bad <~ out_of_range glucose 50 300;
  let errors :=
    if bad then errors ++ ["Glucose level must be between 50 and 300"] else errors in
  let hypertension := dict_get patient_data "hypertension" PNone in
  let errors :=
    if negb (py_in hypertension [PInt 0; PInt 1])
    then errors ++ ["Hypertension must be 0 or 1"] else errors in
  let heart_disease := dict_get patient_data "heart_disease" PNone in
  let errors :=
    if negb (py_in heart_disease [PInt 0; PInt 1])
    then errors ++ ["Heart disease must be 0 or 1"] else errors in
  let stroke := dict_get patient_data "stroke" PNone in
  let errors :=
    if negb (py_in stroke [PInt 0; PInt 1])
    then errors ++ ["Stroke must be 0 or 1"] else errors in
  let gender := dict_get patient_data "gender" PNone in
  let errors :=
    if negb (py_in gender [PStr "Male"; PStr "Female"; PStr "Other"])
    then errors ++ ["Gender must be one of: Male, Female, Other"] else errors in
  let work_type := dict_get patient_data "work_type" PNone in
  let errors :=
    if negb (py_in work_type [PStr "Private"; PStr "Self-employed"; PStr "Govt_job";
                              PStr "Children"; PStr "Never_worked"])
    then errors ++ ["Work type must be one of: Private, Self-employed, Govt_job, Children, Never_worked"]
    else errors in
  let smoking_status := dict_get patient_data "smoking_status" PNone in
  let errors :=
    if negb (py_in smoking_status [PStr "Never smoked"; PStr "Smokes";
                                   PStr "Formerly smoked"; PStr "Unknown"])
    then errors ++ ["Smoking status must be one of: Never smoked, Smokes, Formerly smoked, Unknown"]
    else errors in
  Ok errors.

(** ** Route handlers

    A handler either goes on, returns a response early, or raises; the
    [try]/[except Exception] around its body turns what is raised into the
    generic 500 response. *)

Inductive step (A : Type) : Type :=
| Next (a : A)
| Reply (r : response)
| Throw (e : exn).
Arguments Next {A} a.
Arguments Reply {A} r.
Arguments Throw {A} e.

Definition step_then {A B : Type} (m : step A) (k : A → step B) : step B :=
  match m with
  | Next a => k a
  | Reply r => Reply r
  | Throw e => Throw e
  end.

Notation "x <~~ m ; k" := (step_then m (fun x => k))
  (at level 20, m at level 100, k at level 200, only parsing).

Definition attempt {A : Type} (r : result A) : step A :=
  match r with
  | Ok a => Next a
  | Raise e => Throw e
  end.

(** [if cond: return response] *)
Definition reply_if (cond : bool) (r : response) : step unit :=
  if cond then Reply r else Next tt.

(** [v.strip()]: only a string has the method. *)
Definition method_strip `{PyLib} (v : pyval) : result string :=
  match v with
  | PStr s => Ok (str_strip s)
  | _ => Raise AttributeError
  end.

(** [' ' in s] *)
Definition contains_space (s : string) : bool :=
  existsb (Ascii.eqb " "%char) (list_ascii_of_string s).

(** The first field of [fields] that is not a key of [data]. *)
Definition first_absent (fields : list string) (data : gmap string pyval)
  : option string :=
  List.find (λ field, bool_decide (data !! field = None)) fields.

(** The first field of [fields] for which [data.get(field)] is falsy. *)
Definition first_falsy (fields : list string) (data : gmap string pyval)
  : option string :=
  List.find (λ field, negb (truthy (dict_get data field PNone))) fields.

(** The end of a handler: the lines it logged, the generic 500 response of
    its [except Exception] when something was raised, and the removal of the
    session. *)
Definition finish (w : World) (s : Session) (lines : list log_record)
    (context : string) (outcome : step response) : World * response :=
  let w := foldl (λ w line, logged line w) w lines in
  match outcome with
  | Next r | Reply r => (with_session (session_remove s) w, r)
  | Throw e =>
      (with_session (session_remove s) (logged (ErrorLine context e) w),
       message_response 500 "Internal server error")
  end.

(** *** [routes/patients.py] *)

Module PatientRoutes.
Section Routes.
Context `{PyLib}.

Definition PATIENT_FIELDS : list string :=
  ["gender"; "age"; "hypertension"; "heart_disease"; "ever_married";
   "work_type"; "Residence_type"; "avg_glucose_level"; "bmi"; "smoking_status";
   "stroke"].

Definition convert_field (convert : pyval → option pyval)
    (converted : result (gmap string pyval)) (field : string)
  : result (gmap string pyval) :=
  converted <~ converted;
  match converted !! field with
  | None => Ok converted
  | Some value =>
      match convert value with
      | Some number => Ok (<[field := number]> converted)
      | None => Raise (ValueError (field +:+ " must be a number"))
      end
  end.

Definition _convert_patient_numbers (data : gmap string pyval)
  : result (gmap string pyval) :=
  let converted := data in
  let int_fields := ["age"; "hypertension"; "heart_disease"; "stroke"] in
  let float_fields := ["avg_glucose_level"; "bmi"] in
  let converted :=
    foldl (convert_field (λ v, PInt <$> py_int v)) (Ok converted) int_fields in
  foldl (convert_field (λ v, PFloat <$> py_float v)) converted float_fields.

Definition _prepare_patient_payload (converted_data : gmap string pyval)
  : gmap string pyval :=
  foldl (λ payload field,
           match converted_data !! field with
           | None => payload
           | Some value =>
               match value with
               | PStr _ => <[field := sanitize_input value]> payload
               | _ => <[field := value]> payload
               end
           end) ∅ PATIENT_FIELDS.

(** [PUT /patients/<patient_id>], after the token and role checks. *)
Definition update_patient (now : Z) (w : World) (patient_id : string)
    (data : gmap string pyval) : World * response :=
  let s := session w in
  let update_payload :=
    foldl (λ payload field,
             match data !! field with
             | Some value => <[field := value]> payload
             | None => payload
             end) (∅ : gmap string pyval) PATIENT_FIELDS in
  if bool_decide (update_payload = ∅)
  then finish w s [] "Update patient error"
         (Reply (message_response 400 "No valid fields provided for update"))
  else
    match _convert_patient_numbers update_payload with
    | Raise (ValueError conv_error) =>
        finish w s [] "Update patient error" (Reply (message_response 400 conv_error))
    | Raise e => finish w s [] "Update patient error" (Throw e)
    | Ok converted_data =>
        let sanitized_data := _prepare_patient_payload converted_data in
        match PatientService.update_patient now s (PStr patient_id) sanitized_data with
        | (s, Raise e) => finish w s [] "Update patient error" (Throw e)
        | (s, Ok false) =>
            finish w s [] "Update patient error"
              (Reply (message_response 404 "Patient not found"))
        | (s, Ok true) =>
            finish w s [] "Update patient error"
              (updated_patient <~~ attempt
                 (PatientService._get_patient_sqlite s (PStr patient_id));
               Next {| status := 200;
                       body := [("message", JVal (PStr "Patient updated successfully"));
                                ("patient",
                                 match updated_patient with
                                 | Some d => json_of_dict d
                                 | None => JVal PNone
                                 end)] |})
        end
    end.

(** The checks of [self_register_patient] before anything is stored. *)
Record registration : Type := {
  reg_username : string;
  reg_email : string;
  reg_password : string;
  reg_patient : gmap string pyval;
  reg_first_name : pyval;
  reg_last_name : pyval;
  reg_phone : pyval
}.

Definition pystr_or_empty (v : pyval) : string :=
  match v with
  | PStr s => s
  | _ => ""
  end.

Definition check_self_registration (db : Database) (data : gmap string pyval)
  : step registration :=
  _ <~~ match first_absent PATIENT_FIELDS data with
        | Some field => Reply (message_response 400 (field +:+ " is required"))
        | None => Next tt
        end;
  let credential_fields :=
    ["username"; "password"; "email"; "first_name"; "last_name"] in
  _ <~~ match first_falsy credential_fields data with
        | Some field => Reply (message_response 400 (field +:+ " is required"))
        | None => Next tt
        end;
  username <~~ attempt (method_strip (dict_get data "username" (PStr "")));
  _ <~~ reply_if (String.eqb username "")
          (message_response 400 "Username is required");
  _ <~~ reply_if (negb (py_eq (PStr username) (sanitize_input (PStr username)))
                  || contains_space username)
          (message_response 400
             "Username cannot contain spaces or invalid characters");
  _ <~~ reply_if (Z.of_nat (String.length username) <? 3)
          (message_response 400 "Username must be at least 3 characters");
  _ <~~ reply_if (bool_decide (is_Some (filter_by_username (users db) username)))
          (message_response 409 "Username already exists");
  email <~~ attempt (method_strip (dict_get data "email" (PStr "")));
  _ <~~ reply_if (String.eqb email "" || negb (validate_email email))
          (message_response 400 "Valid email is required");
  _ <~~ reply_if (bool_decide (is_Some (filter_by_email (users db) email)))
          (message_response 409 "Email already exists");
  let password := dict_get data "password" (PStr "") in
  password <~~ match password with
               | PStr p => Next p
               | _ => Throw TypeError
               end;
  _ <~~ (let '(valid_password, password_message) := validate_password password in
         reply_if (negb valid_password) (message_response 400 password_message));
  converted_data <~~ match _convert_patient_numbers data with
                     | Raise (ValueError conv_error) =>
                         Reply (message_response 400 conv_error)
                     | Raise e => Throw e
                     | Ok converted => Next converted
                     end;
  validation_errors <~~ attempt (validate_patient_data converted_data);
  _ <~~ match validation_errors with
        | [] => Next tt
        | _ => Reply {| status := 400;
                        body := [("message", JVal (PStr "Validation errors"));
                                 ("errors",
                                  JList ((λ e, JVal (PStr e)) <$> validation_errors))] |}
        end;
  let sanitized_data := _prepare_patient_payload converted_data in
  first_name <~~ attempt (method_strip (dict_get data "first_name" (PStr "")));
  let first_name := sanitize_input (PStr first_name) in
  last_name <~~ attempt (method_strip (dict_get data "last_name" (PStr "")));
  let last_name := sanitize_input (PStr last_name) in
  _ <~~ reply_if (negb (truthy first_name) || negb (truthy last_name))
          (message_response 400 "First name and last name are required");
  let phone := dict_get data "phone" PNone in
  let phone := if truthy phone then sanitize_input phone else PNone in
  Next {| reg_username := username; reg_email := email; reg_password := password;
          reg_patient := sanitized_data; reg_first_name := first_name;
          reg_last_name := last_name; reg_phone := phone |}.

(** [POST /patients/self-register] *)
Definition self_register_patient (now : Z) (w : World) (data : gmap string pyval)
  : World * response :=
  let s := session w in
  let context := "Self registration error" in
  match check_self_registration (sql w) data with
  | Reply r => finish w s [] context (Reply r)
  | Throw e => finish w s [] context (Throw e)
  | Next reg =>
      let user :=
        {| user_id := PNone;
           username := reg_username reg;
           email := reg_email reg;
           password_hash := generate_password_hash (reg_password reg);
           role := "patient";
           first_name := pystr_or_empty (reg_first_name reg);
           last_name := pystr_or_empty (reg_last_name reg);
           phone := reg_phone reg;
           specialization := PNone;
           license_number := PNone;
           is_active := true;
           user_created_at := now;
           last_login := None |} in
      let new_user_id := PInt (next_id (user_id <$> users (store s))) in
      let s := session_record (InsertUser user) s in
      match session_commit now s with
      | (s, Raise IntegrityError) =>
          let s := session_rollback s in
          finish w s [] context
            (Reply (message_response 409 "Username or email already exists"))
      | (s, Raise e) => finish w s [] context (Throw e)
      | (s, Ok _) =>
          let sanitized_data :=
            <["assigned_doctor_id" := PNone]>
              (<["created_by" := new_user_id]> (reg_patient reg)) in
          match PatientService.create_patient now s sanitized_data with
          | (s, Raise patient_error) =>
              let s := session_record (DeleteUser new_user_id) s in
              match session_commit now s with
              | (s, Raise e) => finish w s [] context (Throw e)
              | (s, Ok _) =>
                  finish w s [ErrorLine "Patient creation error" patient_error] context
                    (Reply (message_response 500 "Failed to register patient"))
              end
          | (s, Ok patient_id) =>
              if truthy patient_id
              then finish w s [] context
                     (Reply {| status := 201;
                               body := [("message", JVal (PStr "Patient self-registration submitted successfully"));
                                        ("patient_id", JVal patient_id);
                                        ("status", JVal (PStr "pending_review"))] |})
              else
                let s := session_record (DeleteUser new_user_id) s in
                match session_commit now s with
                | (s, Raise e) => finish w s [] context (Throw e)
                | (s, Ok _) =>
                    finish w s [] context
                      (Reply (message_response 500 "Failed to register patient"))
                end
          end
      end
  end.

End Routes.
End PatientRoutes.

(** *** [models/security_log.py] *)

(** [SecurityLog.log_event]: the one function that writes the table
    [security_logs]. *)
Definition log_event (now : Z) (s : Session) (event_type description : string)
    (user_id username user_role target_user_id target_username target_type
     target_id ip_address user_agent : pyval) (status severity : string)
    (additional_data : pyval) : Session * result SecurityLog :=
  let log :=
    {| log_id := 0; event_type := event_type; event_description := description;
       log_user_id := user_id; log_username := username; user_role := user_role;
       target_user_id := target_user_id; target_username := target_username;
       target_type := target_type; target_id := target_id;
       ip_address := ip_address; user_agent := user_agent;
       log_status := status; severity := severity;
       additional_data := additional_data; log_created_at := now |} in
  let new_id := next_id ((λ e, PInt (log_id e)) <$> security_logs (store s)) in
  let s := session_record (InsertSecurityLog log) s in
  match session_commit now s with
  | (s, Raise e) => (s, Raise e)
  | (s, Ok _) => (s, Ok (set_log_id new_id now log))
  end.

(** [utils/security.py]: [log_security_event] writes one line to the
    application logger. *)
Definition log_security_event (user_id : pyval) (event_type description : string)
    (ip_address : pyval) (w : World) : World :=
  logged (SecurityEventLine user_id event_type description ip_address) w.

(** *** [utils/database.py] *)

(** The string a value known to be a string holds. *)
Definition text_of (v : pyval) : string :=
  match v with
  | PStr s => s
  | _ => ""
  end.

Definition new_object_id (existing : list N) : N :=
  (1 + foldr N.max 0 existing)%N.

Module UserOperations.
Section Operations.
Context `{PyLib}.

(** [UserMongoDB(doc)]: the identity of a document, [id = str(_id)]. *)
Definition of_document (doc : N * User) : User :=
  set_user_id (PStr (object_id_str (fst doc))) (snd doc).

Definition create_user (now : Z) (w : World)
    (username email password role first_name last_name : string)
    (phone specialization license_number : pyval) : World * option User :=
  let user :=
    {| user_id := PNone; username := username; email := email;
       password_hash := generate_password_hash password;
       role := role; first_name := first_name; last_name := last_name;
       phone := phone; specialization := specialization;
       license_number := license_number; is_active := true;
       user_created_at := now; last_login := None |} in
  if use_mongodb_users w
  then
    (* manager.create_user(user): insert_one under the two unique indexes *)
    if user_unique (snd <$> mongo_users w) user
    then
      let inserted_id := new_object_id (fst <$> mongo_users w) in
      (with_mongo_users (mongo_users w ++ [(inserted_id, user)]) w,
       Some (of_document (inserted_id, user)))
    else (w, None)
  else
    let new_id := PInt (next_id (user_id <$> users (sql w))) in
    let s := session_record (InsertUser user) (session w) in
    match session_commit now s with
    | (s, Ok _) => (with_session s w, Some (set_user_id new_id user))
    | (s, Raise e) => (with_session (session_rollback s) w, None)
    end.

Definition find_by_username (w : World) (username : string) : option User :=
  if use_mongodb_users w
  then of_document <$> List.find (λ doc, has_username username (snd doc))
                                 (mongo_users w)
  else filter_by_username (users (sql w)) username.

Definition find_by_email (w : World) (email : string) : option User :=
  if use_mongodb_users w
  then of_document <$> List.find (λ doc, has_email email (snd doc))
                                 (mongo_users w)
  else filter_by_email (users (sql w)) email.

Definition update_last_login (now : Z) (w : World) (user_id : pyval) : World :=
  if use_mongodb_users w
  then
    match user_id with
    | PStr id =>
        match object_id id with
        | Some oid =>
            with_mongo_users
              ((λ doc, if N.eqb (fst doc) oid
                       then (fst doc, set_last_login now (snd doc)) else doc)
               <$> mongo_users w) w
        | None => w
        end
    | _ => w
    end
  else
    match List.find (has_id user_id) (users (sql w)) with
    | Some user =>
        let s := session_record (UpdateUser (set_last_login now user)) (session w) in
        match session_commit now s with
        | (s, Ok _) => with_session s w
        | (s, Raise e) => with_session (session_rollback s) w
        end
    | None => w
    end.

Definition rollback (w : World) : World :=
  if use_mongodb_users w then w
  else with_session (session_rollback (session w)) w.

End Operations.
End UserOperations.

(** *** [models/user.py]: methods of an identity *)

Section UserMethods.
Context `{PyLib}.

Definition check_password (user : User) (password : pyval) : result bool :=
  check_password_hash (password_hash user) password.

Definition generate_auth_token (now : Z) (user : User) : string :=
  jwt_encode (user_id user) (username user) (role user) (now + 86400).

Definition user_to_dict (user : User) : json :=
  JObj [("id", JVal (user_id user));
        ("username", JVal (PStr (username user)));
        ("email", JVal (PStr (email user)));
        ("role", JVal (PStr (role user)));
        ("first_name", JVal (PStr (first_name user)));
        ("last_name", JVal (PStr (last_name user)));
        ("phone", JVal (phone user));
        ("specialization", JVal (specialization user));
        ("is_active", JVal (PBool (is_active user)));
        ("created_at", JVal (PStr (isoformat (user_created_at user))));
        ("last_login",
         JVal (match last_login user with
               | Some t => PStr (isoformat t)
               | None => PNone
               end))].

End UserMethods.

(** The identities that are stored, in the configured backend. *)
Definition identities `{PyLib} (w : World) : list User :=
  if use_mongodb_users w
  then UserOperations.of_document <$> mongo_users w
  else users (sql w).

(** *** [routes/auth.py] *)

(** What [request.get_json()] finds in the body: nothing that parses, the
    JSON [null], or a JSON object. *)
Inductive payload : Type :=
| Malformed
| Null
| Object (data : gmap string pyval).

Record login_request : Type := {
  content_type_is_json : bool;
  request_body : payload;
  remote_addr : pyval
}.

Module AuthRoutes.
Section Routes.
Context `{PyLib}.

(** [POST /api/auth/register]: the checks on the body alone, then the
    lookups for a duplicate and the check of the role. *)
Definition register_fields (data : gmap string pyval)
  : step (string * string * string * string * string * string) :=
  let required_fields :=
    ["username"; "email"; "password"; "first_name"; "last_name"; "role"] in
  _ <~~ match first_falsy required_fields data with
        | Some field => Reply (message_response 400 (field +:+ " is required"))
        | None => Next tt
        end;
  let username := text_of (sanitize_input (dict_get data "username" PNone)) in
  let email := text_of (sanitize_input (dict_get data "email" PNone)) in
  let first_name := text_of (sanitize_input (dict_get data "first_name" PNone)) in
  let last_name := text_of (sanitize_input (dict_get data "last_name" PNone)) in
  let role := text_of (sanitize_input (dict_get data "role" PNone)) in
  _ <~~ reply_if (negb (validate_email email))
          (message_response 400 "Invalid email format");
  password <~~ match dict_get data "password" PNone with
               | PStr p => Next p
               | _ => Throw TypeError
               end;
  _ <~~ (let '(is_valid_password, password_msg) := validate_password password in
         reply_if (negb is_valid_password) (message_response 400 password_msg));
  Next (username, email, password, role, first_name, last_name).

Definition register_checks (w : World) (data : gmap string pyval)
  : step (string * string * string * string * string * string) :=
  fields <~~ register_fields data;
  let '(username, email, password, role, first_name, last_name) := fields in
  _ <~~ reply_if (bool_decide (is_Some (UserOperations.find_by_username w username)))
          (message_response 409 "Username already exists");
  _ <~~ reply_if (bool_decide (is_Some (UserOperations.find_by_email w email)))
          (message_response 409 "Email already exists");
  let valid_roles := ["patient"; "doctor"; "admin"] in
  _ <~~ reply_if (negb (existsb (String.eqb role) valid_roles))
          (message_response 400 "Invalid role");
  Next fields.

Definition register (now : Z) (w : World) (remote_addr : pyval)
    (data : gmap string pyval) : World * response :=
  match register_checks w data with
  | Reply r => (with_session (session_remove (session w)) w, r)
  | Throw e =>
      let w := logged (ErrorLine "Registration error" e) w in
      let w := UserOperations.rollback w in
      (with_session (session_remove (session w)) w,
       message_response 500 "Internal server error")
  | Next (username, email, password, role, first_name, last_name) =>
      let is_doctor := String.eqb role "doctor" in
      let '(w, new_user) :=
        UserOperations.create_user now w username email password role
          first_name last_name
          (sanitize_input (dict_get data "phone" (PStr "")))
          (if is_doctor
           then sanitize_input (dict_get data "specialization" (PStr ""))
           else PNone)
          (if is_doctor
           then sanitize_input (dict_get data "license_number" (PStr ""))
           else PNone) in
      match new_user with
      | None =>
          (with_session (session_remove (session w)) w,
           message_response 500 "Failed to create user")
      | Some new_user =>
          let w :=
            log_security_event (user_id new_user) "USER_REGISTER"
              ("User " +:+ username +:+ " registered successfully") remote_addr w in
          (with_session (session_remove (session w)) w,
           {| status := 201;
              body := [("message", JVal (PStr "User registered successfully"));
                       ("user", user_to_dict new_user)] |})
      end
  end.

(** [POST /api/auth/login] *)
Definition login (now : Z) (w : World) (request : login_request)
  : World * response :=
  let leave (w : World) (r : response) : World * response :=
    (with_session (session_remove (session w)) w, r) in
  let failed (w : World) (e : exn) : World * response :=
    leave (logged (ErrorLine "Login error" e) w)
          (message_response 500 "Internal server error") in
  match request_body request with
  | Malformed =>
      if content_type_is_json request
      then failed w (ValueError "Failed to decode JSON object")
      else leave w (message_response 415 "Content-Type must be application/json")
  | Null => leave w (message_response 400 "No JSON data provided")
  | Object data =>
      if bool_decide (data = ∅)
      then leave w (message_response 400 "No JSON data provided")
      else if negb (truthy (dict_get data "username" PNone))
              || negb (truthy (dict_get data "password" PNone))
      then leave w (message_response 400 "Username and password are required")
      else
        let original_username := dict_get data "username" PNone in
        let username := sanitize_input original_username in
        if negb (py_eq username original_username)
        then leave w (message_response 400
                        "Username contains invalid whitespace or characters")
        else
          let username := text_of username in
          let password := dict_get data "password" PNone in
          let user := UserOperations.find_by_username w username in
          let rejected :=
            match user with
            | None => Ok true
            | Some user => matches <~ check_password user password; Ok (negb matches)
            end in
          match rejected, user with
          | Raise e, _ => failed w e
          | Ok true, _ | Ok false, None =>
              let w :=
                log_security_event PNone "LOGIN_FAILED"
                  ("Failed login attempt for username: " +:+ username)
                  (remote_addr request) w in
              leave w (message_response 401 "Invalid username or password")
          | Ok false, Some user =>
              if negb (is_active user)
              then leave w (message_response 401 "Account is deactivated")
              else
                let w := UserOperations.update_last_login now w (user_id user) in
                (* in SQLAlchemy [user] is the object that was just updated *)
                let user :=
                  if use_mongodb_users w then user
                  else default user (List.find (has_id (user_id user))
                                               (users (sql w))) in
                let token := generate_auth_token now user in
                let w :=
                  log_security_event (user_id user) "LOGIN_SUCCESS"
                    ("User " +:+ username +:+ " logged in successfully")
                    (remote_addr request) w in
                leave w {| status := 200;
                           body := [("message", JVal (PStr "Login successful"));
                                    ("token", JVal (PStr token));
                                    ("user", user_to_dict user)] |}
          end
  end.

(** The username and the password with which a request reaches the lookup
    of [login], when it gets past the checks before it. *)
Definition presented (request : login_request) : option (string * pyval) :=
  match request_body request with
  | Object data =>
      let original_username := dict_get data "username" PNone in
      if bool_decide (data = ∅) then None
      else if negb (truthy original_username)
              || negb (truthy (dict_get data "password" PNone))
      then None
      else if negb (py_eq (sanitize_input original_username) original_username)
      then None
      else Some (text_of (sanitize_input original_username),
                 dict_get data "password" PNone)
  | _ => None
  end.

End Routes.
End AuthRoutes.

(** *** [services/appointment_service.py] *)

Module AppointmentMongoDB.
Section Service.
Context `{PyLib}.

(** [collection.find_one({'_id': oid})] *)
Definition find_one (collection : list (N * gmap string pyval)) (oid : N)
  : option (gmap string pyval) :=
  snd <$> List.find (λ doc, N.eqb (fst doc) oid) collection.

(** [collection.update_one({'_id': oid}, {'$set': fields})]: the new
    collection and [modified_count], which counts a matched document only
    when the update changed it. *)
Fixpoint update_one (collection : list (N * gmap string pyval)) (oid : N)
    (fields : gmap string pyval) : list (N * gmap string pyval) * Z :=
  match collection with
  | [] => ([], 0)
  | doc :: rest =>
      if N.eqb (fst doc) oid
      then
        let updated := fields ∪ snd doc in
        ((fst doc, updated) :: rest, if bool_decide (updated = snd doc) then 0 else 1)
      else
        let '(rest, modified_count) := update_one rest oid fields in
        (doc :: rest, modified_count)
  end.

(** The class defines [create_appointment] twice; the second definition,
    without the connection check, is the one in force. *)
Definition create_appointment (now : Z) (w : World)
    (patient_id doctor_id appointment_date appointment_time reason urgency
     status notes : pyval) : World * result (gmap string pyval) :=
  match appointments w with
  | None =>
      (logged (ErrorLine "Error creating appointment in MongoDB" AttributeError) w,
       Raise AttributeError)
  | Some collection =>
      let appointment : gmap string pyval :=
        list_to_map
          [("patient_id", PStr (py_str patient_id));
           ("doctor_id", PStr (py_str doctor_id));
           ("appointment_date", appointment_date);
           ("appointment_time", appointment_time);
           ("reason", reason);
           ("urgency", urgency);
           ("status", status);
           ("notes", notes);
           ("created_at", PDatetime now);
           ("updated_at", PDatetime now)] in
      let inserted_id := new_object_id (fst <$> collection) in
      let w := with_appointments (Some (collection ++ [(inserted_id, appointment)])) w in
      let appointment := <["id" := PStr (object_id_str inserted_id)]> appointment in
      let appointment := <["_id" := PStr (object_id_str inserted_id)]> appointment in
      (w, Ok appointment)
  end.

Definition get_appointment (w : World) (appointment_id : string)
  : World * option (gmap string pyval) :=
  match appointments w, object_id appointment_id with
  | Some collection, Some oid =>
      match find_one collection oid with
      | Some appointment =>
          (w, Some (<["id" := PStr (object_id_str oid)]> appointment))
      | None => (w, None)
      end
  | Some _, None =>
      (logged (ErrorLine "Error getting appointment" (ValueError "InvalidId")) w, None)
  | None, _ =>
      (logged (ErrorLine "Error getting appointment" AttributeError) w, None)
  end.

Definition update_appointment (now : Z) (w : World) (appointment_id : string)
    (update_data : gmap string pyval) : World * bool :=
  let update_data := <["updated_at" := PDatetime now]> update_data in
  match appointments w, object_id appointment_id with
  | Some collection, Some oid =>
      let '(collection, modified_count) := update_one collection oid update_data in
      (with_appointments (Some collection) w, 0 <? modified_count)
  | Some _, None =>
      (logged (ErrorLine "Error updating appointment" (ValueError "InvalidId")) w, false)
  | None, _ =>
      (logged (ErrorLine "Error updating appointment" AttributeError) w, false)
  end.

Definition cancel_appointment (now : Z) (w : World) (appointment_id : string)
  : World * bool :=
  update_appointment now w appointment_id {[ "status" := PStr "cancelled" ]}.

Definition complete_appointment (now : Z) (w : World) (appointment_id : string)
    (notes : pyval) : World * bool :=
  let update_data : gmap string pyval := {[ "status" := PStr "completed" ]} in
  let update_data :=
    if truthy notes then <["notes" := notes]> update_data else update_data in
  update_appointment now w appointment_id update_data.

End Service.
End AppointmentMongoDB.

(** *** [routes/appointments.py] *)

Module AppointmentRoutes.
Section Routes.
Context `{PyLib}.

(** [datetime.strptime(value, format)]: a [TypeError] on a value that is not
    a string, the 400 response of the handler on a [ValueError]. *)
Definition parse_with (parse : string → option Z) (value : pyval) : step Z :=
  match value with
  | PStr text =>
      match parse text with
      | Some parsed => Next parsed
      | None =>
          Reply (message_response 400
                   "Invalid date or time format. Use YYYY-MM-DD for date and HH:MM for time")
      end
  | _ => Throw TypeError
  end.

Definition leave (context : string) (w : World) (outcome : step response)
  : World * response :=
  match outcome with
  | Next r | Reply r => (w, r)
  | Throw e =>
      (logged (ErrorLine context e) w, message_response 500 "Internal server error")
  end.

(** [POST /appointments/book], after the token check; [today] is
    [date.today()] as a day number. *)
Definition book_appointment (now today : Z) (w : World) (current_user : User)
    (data : gmap string pyval) : World * response :=
  let context := "Book appointment error" in
  let required_fields :=
    ["doctor_id"; "appointment_date"; "appointment_time"; "reason"] in
  let checks :=
    _ <~~ match first_falsy required_fields data with
          | Some field => Reply (message_response 400 (field +:+ " is required"))
          | None => Next tt
          end;
    (* Parse date and time first *)
    appointment_date <~~ parse_with strptime_date (dict_get data "appointment_date" PNone);
    appointment_time <~~ parse_with strptime_time (dict_get data "appointment_time" PNone);
    (* Check if date is in the future *)
    _ <~~ reply_if (appointment_date <? today)
            (message_response 400 "Cannot book appointments in the past");
    Next tt in
  match checks with
  | Reply r => leave context w (Reply r)
  | Throw e => leave context w (Throw e)
  | Next _ =>
      match AppointmentMongoDB.create_appointment now w
              (user_id current_user)
              (dict_get data "doctor_id" PNone)
              (dict_get data "appointment_date" PNone)
              (dict_get data "appointment_time" PNone)
              (sanitize_input (dict_get data "reason" PNone))
              (dict_get data "urgency" (PStr "routine"))
              (PStr "scheduled") PNone with
      | (w, Raise e) => leave context w (Throw e)
      | (w, Ok appointment) =>
          leave context w
            (Next {| status := 201;
                     body :=
                       [("message", JVal (PStr "Appointment booked successfully"));
                        ("appointment",
                         JObj ((λ key, (key, JVal (column appointment key)))
                               <$> ["id"; "patient_id"; "doctor_id";
                                    "appointment_date"; "appointment_time";
                                    "reason"; "urgency"; "status"]))] |})
      end
  end.

(** The ownership check shared by cancel and reschedule. *)
Definition check_permissions (current_user : User)
    (appointment : gmap string pyval) : step unit :=
  _ <~~ (if String.eqb (role current_user) "patient"
         then
           patient_id <~~ attempt (dict_item appointment "patient_id");
           reply_if (negb (py_eq patient_id (PStr (py_str (user_id current_user)))))
                    (message_response 403 "Access denied")
         else Next tt);
  if String.eqb (role current_user) "doctor"
  then
    doctor_id <~~ attempt (dict_item appointment "doctor_id");
    reply_if (negb (py_eq doctor_id (PStr (py_str (user_id current_user)))))
             (message_response 403 "Access denied")
  else Next tt.

(** [POST /appointments/<appointment_id>/cancel] *)
Definition cancel_appointment (now : Z) (w : World) (current_user : User)
    (appointment_id : string) : World * response :=
  let context := "Cancel appointment error" in
  let '(w, appointment) := AppointmentMongoDB.get_appointment w appointment_id in
  match appointment with
  | None => leave context w (Reply (message_response 404 "Appointment not found"))
  | Some appointment =>
      (* Check permissions *)
      match check_permissions current_user appointment with
      | Reply r => leave context w (Reply r)
      | Throw e => leave context w (Throw e)
      | Next _ =>
          let '(w, _) := AppointmentMongoDB.cancel_appointment now w appointment_id in
          leave context w
            (Next (message_response 200 "Appointment cancelled successfully"))
      end
  end.

(** [POST /appointments/<appointment_id>/reschedule] *)
Definition reschedule_appointment (now today : Z) (w : World) (current_user : User)
    (appointment_id : string) (data : gmap string pyval) : World * response :=
  let context := "Reschedule appointment error" in
  let checks :=
    _ <~~ reply_if (negb (truthy (dict_get data "appointment_date" PNone))
                    || negb (truthy (dict_get data "appointment_time" PNone)))
            (message_response 400 "New date and time are required");
    (* Validate date and time format *)
    appointment_date <~~ parse_with strptime_date (dict_get data "appointment_date" PNone);
    appointment_time <~~ parse_with strptime_time (dict_get data "appointment_time" PNone);
    (* Check if date is in the future *)
    _ <~~ reply_if (appointment_date <? today)
            (message_response 400 "Cannot reschedule to a past date");
    Next tt in
  match checks with
  | Reply r => leave context w (Reply r)
  | Throw e => leave context w (Throw e)
  | Next _ =>
      let '(w, appointment) := AppointmentMongoDB.get_appointment w appointment_id in
      match appointment with
      | None => leave context w (Reply (message_response 404 "Appointment not found"))
      | Some appointment =>
          match check_permissions current_user appointment with
          | Reply r => leave context w (Reply r)
          | Throw e => leave context w (Throw e)
          | Next _ =>
              (* Update appointment *)
              let update_data : gmap string pyval :=
                list_to_map
                  [("appointment_date", dict_get data "appointment_date" PNone);
                   ("appointment_time", dict_get data "appointment_time" PNone)] in
              let '(w, success) :=
                AppointmentMongoDB.update_appointment now w appointment_id update_data in
              if success
              then leave context w
                     (Next (message_response 200 "Appointment rescheduled successfully"))
              else leave context w
                     (Next (message_response 500 "Failed to reschedule appointment"))
          end
      end
  end.

End Routes.
End AppointmentRoutes.

(** ** A concrete runtime for the worked examples

    The examples below run the definitions on concrete requests; they use
    this small runtime: identifiers print in decimal, [int()] reads decimal
    digits, the regular-expression calls accept every string and remove
    nothing, the password hash is the password with a prefix, and dates are
    given directly as day numbers. *)

Definition decimal_of_str (s : string) : option Z :=
  if String.eqb s "" then None
  else foldl (λ acc c, n ← acc;
                       let d := Z.of_nat (Ascii.nat_of_ascii c) - 48 in
                       if (0 <=? d) && (d <=? 9) then Some (10 * n + d) else None)
             (Some 0) (list_ascii_of_string s).

Definition example_str (v : pyval) : string :=
  match v with
  | PNone => "None"
  | PBool true => "True"
  | PBool false => "False"
  | PInt z => pretty z
  | PFloat q => pretty (Qnum q) +:+ "/" +:+ pretty (Zpos (Qden q))
  | PStr s => s
  | PDatetime t => pretty t
  end.

#[local] Instance example_lib : PyLib := {|
  py_str := example_str;
  int_of_str := decimal_of_str;
  float_of_str := λ s, inject_Z <$> decimal_of_str s;
  int_of_float := λ q, Z.quot (Qnum q) (Zpos (Qden q));
  str_strip := λ s, s;
  re_sub_empty := λ _ _ s, s;
  re_match := λ _ _, true;
  re_search := λ _ _, true;
  strptime_date := decimal_of_str;
  strptime_time := decimal_of_str;
  isoformat := λ t, pretty t;
  generate_password_hash := λ p, "bcrypt:" +:+ p;
  check_password_hash := λ h p,
    match p with
    | PStr p => Ok (String.eqb h ("bcrypt:" +:+ p))
    | _ => Raise TypeError
    end;
  jwt_encode := λ id name role exp, "jwt:" +:+ name;
  object_id := λ s, Z.to_N <$> decimal_of_str s;
  object_id_str := λ n, pretty (Z.of_N n)
|}.

(** A stored patient, 30 years old, with no risk factor. *)
Definition example_patient : gmap string pyval :=
  list_to_map
    [("id", PInt 1); ("gender", PStr "Female"); ("age", PInt 30);
     ("hypertension", PInt 0); ("heart_disease", PInt 0);
     ("ever_married", PStr "No"); ("work_type", PStr "Private");
     ("Residence_type", PStr "Urban"); ("avg_glucose_level", PFloat 90);
     ("bmi", PFloat 22); ("smoking_status", PStr "Never smoked");
     ("stroke", PInt 0); ("stroke_risk", PInt 0); ("risk_level", PStr "low");
     ("created_by", PInt 1); ("assigned_doctor_id", PNone);
     ("created_at", PDatetime 1000); ("updated_at", PDatetime 1000)].

Definition example_db : Database :=
  {| users := []; patients := [example_patient]; security_logs := [] |}.


Definition empty_db : Database :=
  {| users := []; patients := []; security_logs := [] |}.

(** The body of a self-registration: the patient of the second scenario of
    the specification, with credentials. *)
Definition registration_request : gmap string pyval :=
  list_to_map
    [("gender", PStr "Male"); ("age", PInt 67); ("hypertension", PInt 1);
     ("heart_disease", PInt 0); ("ever_married", PStr "Yes");
     ("work_type", PStr "Private"); ("Residence_type", PStr "Urban");
     ("avg_glucose_level", PInt 145); ("bmi", PFloat (281 # 10));
     ("smoking_status", PStr "Formerly smoked"); ("stroke", PInt 0);
     ("username", PStr "alice"); ("password", PStr "Passw0rd1");
     ("email", PStr "alice@example.org"); ("first_name", PStr "Alice");
     ("last_name", PStr "Archer")].

(** The same body with the JSON [null] for [ever_married], a field that
    [validate_patient_data] does not look at and the table declares
    [NOT NULL]. *)
Definition registration_with_null : gmap string pyval :=
  <["ever_married" := PNone]> registration_request.

Definition example_user (id : Z) (name : string) (active : bool) : User :=
  {| user_id := PInt id; username := name; email := name +:+ "@example.org";
     password_hash := "bcrypt:Passw0rd1"; role := "patient";
     first_name := name; last_name := "Archer"; phone := PNone;
     specialization := PNone; license_number := PNone; is_active := active;
     user_created_at := 1; last_login := None |}.

(** Two identities, the second deactivated. *)
Definition users_db : Database :=
  {| users := [example_user 1 "alice" true; example_user 2 "bob" false];
     patients := []; security_logs := [] |}.

Definition login_with (name password : string) : login_request :=
  {| content_type_is_json := true;
     request_body := Object {[ "username" := PStr name; "password" := PStr password ]};
     remote_addr := PStr "203.0.113.7" |}.

(** A booking for the day [day] with the doctor 7. *)
Definition booking_on (day : string) : gmap string pyval :=
  list_to_map
    [("doctor_id", PInt 7); ("appointment_date", PStr day);
     ("appointment_time", PStr "630"); ("reason", PStr "Follow-up")].

(** A collection with one scheduled appointment of the patient 1. *)
Definition example_appointment : gmap string pyval :=
  list_to_map
    [("patient_id", PStr "1"); ("doctor_id", PStr "7");
     ("appointment_date", PStr "739200"); ("appointment_time", PStr "630");
     ("reason", PStr "Follow-up"); ("urgency", PStr "routine");
     ("status", PStr "scheduled"); ("notes", PNone);
     ("created_at", PDatetime 100); ("updated_at", PDatetime 100)].

Definition appointments_world : World :=
  with_appointments (Some [(1%N, example_appointment)]) (world_of users_db).

Definition alice : User := example_user 1 "alice" true.


(** A booking or rescheduling body whose date and time are non-empty strings
    that parse, the date to the day [day]. *)
Definition dated `{PyLib} (data : gmap string pyval) (day : Z) : Prop :=
  ∃ date_text time_text minutes,
    dict_get data "appointment_date" PNone = PStr date_text
    ∧ date_text ≠ ""
    ∧ strptime_date date_text = Some day
    ∧ dict_get data "appointment_time" PNone = PStr time_text
    ∧ time_text ≠ ""
    ∧ strptime_time time_text = Some minutes.

(** ** Auxiliary notions for the further properties *)

(** The values Python orders against an integer: [int], [float], [bool]. *)
Definition is_number (v : pyval) : bool :=
  match v with
  | PBool _ | PInt _ | PFloat _ => true
  | _ => false
  end.




(** ** Theorems *)



Lemma Qltb_lt (x y : Q) : Qltb x y = true ↔ (x < y)%Q.
Proof. unfold Qltb, Qlt. apply Z.ltb_lt. Qed.

Lemma Qltb_ge (x y : Q) : Qltb x y = false ↔ (y <= x)%Q.
Proof. unfold Qltb, Qle. rewrite Z.ltb_ge. reflexivity. Qed.

Lemma lookup_put_field_eq key field (d : gmap string pyval) :
  put_field key field d !! key = match field with Some v => Some v | None => d !! key end.
Proof. destruct field; simpl; [apply lookup_insert_eq | done]. Qed.

Lemma lookup_put_field_ne key key' field (d : gmap string pyval) :
  key ≠ key' → put_field key field d !! key' = d !! key'.
Proof. intros Hne. destruct field; simpl; [by apply lookup_insert_ne | done]. Qed.

Lemma attributes_dict_lookup (a : PatientAttributes) :
  attributes_dict a !! "age" = PInt <$> attr_age a
  ∧ attributes_dict a !! "hypertension" = PInt <$> attr_hypertension a
  ∧ attributes_dict a !! "heart_disease" = PInt <$> attr_heart_disease a
  ∧ attributes_dict a !! "avg_glucose_level" = PFloat <$> attr_avg_glucose_level a
  ∧ attributes_dict a !! "bmi" = PFloat <$> attr_bmi a
  ∧ attributes_dict a !! "smoking_status" = PStr <$> attr_smoking_status a
  ∧ attributes_dict a !! "stroke" = PInt <$> attr_stroke a.
Proof.
  unfold attributes_dict.
  repeat split;
    repeat (rewrite lookup_put_field_ne by discriminate);
    rewrite lookup_put_field_eq;
    repeat (rewrite lookup_put_field_ne by discriminate);
    match goal with |- context [ _ <$> ?o ] => destruct o end; reflexivity.
Qed.

(** The tiered contribution of a numeric field, as the code computes it,
    in front of the rest [k] of the function. *)
Lemma tier_int {B : Type} (z hi lo p_hi p_lo score : Z) (k : Z → result B) :
  (above_hi <~ py_gt_int (PInt z) hi;
   score' <~ (if above_hi then Ok (score + p_hi)
              else above_lo <~ py_gt_int (PInt z) lo;
                   Ok (if above_lo then score + p_lo else score));
   k score')
  = k (if hi <? z then score + p_hi else if lo <? z then score + p_lo else score).
Proof. simpl. destruct (hi <? z); simpl; [done|]. destruct (lo <? z); done. Qed.

Lemma tier_float {B : Type} (q : Q) (hi lo p_hi p_lo score : Z) (k : Z → result B) :
  (above_hi <~ py_gt_int (PFloat q) hi;
   score' <~ (if above_hi then Ok (score + p_hi)
              else above_lo <~ py_gt_int (PFloat q) lo;
                   Ok (if above_lo then score + p_lo else score));
   k score')
  = k (score + (if Qlt_le_dec (inject_Z hi) q then p_hi
                else if Qlt_le_dec (inject_Z lo) q then p_lo else 0)).
Proof.
  simpl.
  destruct (Qltb (inject_Z hi) q) eqn:Hhi; simpl.
  - apply Qltb_lt in Hhi. destruct (Qlt_le_dec (inject_Z hi) q) as [_|Hle]; [done|].
    exfalso. exact (Qlt_not_le _ _ Hhi Hle).
  - apply Qltb_ge in Hhi. destruct (Qlt_le_dec (inject_Z hi) q) as [Hlt|_].
    { exfalso. exact (Qlt_not_le _ _ Hlt Hhi). }
    destruct (Qltb (inject_Z lo) q) eqn:Hlo; simpl.
    + apply Qltb_lt in Hlo. destruct (Qlt_le_dec (inject_Z lo) q) as [_|Hle]; [done|].
      exfalso. exact (Qlt_not_le _ _ Hlo Hle).
    + apply Qltb_ge in Hlo. destruct (Qlt_le_dec (inject_Z lo) q) as [Hlt|_].
      { exfalso. exact (Qlt_not_le _ _ Hlt Hlo). }
      f_equal; lia.
Qed.

Lemma age_points_ltb (z score : Z) :
  (if 60 <? z then score + 30 else if 45 <? z then score + 15 else score)
  = score + age_points z.
Proof.
  unfold age_points.
  destruct (Z.ltb_spec 60 z).
  - rewrite decide_True by lia. reflexivity.
  - rewrite (decide_False (P := 60 < z)) by lia.
    destruct (Z.ltb_spec 45 z).
    + rewrite decide_True by lia. reflexivity.
    + rewrite decide_False by lia. lia.
Qed.

Lemma flag_eq_one (z : Z) (w score : Z) :
  (if py_eq (PInt z) (PInt 1) then score + w else score) = score + flag_points w z.
Proof.
  unfold py_eq, flag_points; simpl.
  unfold Qeq_bool; simpl. rewrite Z.mul_1_r. change (1 * 1) with 1.
  destruct (Z.eqb_spec z 1) as [Hz|Hz].
  - rewrite decide_True by done. reflexivity.
  - rewrite decide_False by done. lia.
Qed.

Lemma smoking_tier (s : string) (score : Z) :
  (if py_eq (PStr s) (PStr "Smokes") then score + 10
   else if py_eq (PStr s) (PStr "Formerly smoked") then score + 5
   else score) = score + smoking_points s.
Proof.
  unfold py_eq, smoking_points; simpl.
  destruct (String.eqb_spec s "Smokes") as [->|Hs].
  - rewrite decide_True by done. reflexivity.
  - rewrite (decide_False (P := s = "Smokes")) by done.
    destruct (String.eqb_spec s "Formerly smoked") as [->|Hf].
    + rewrite decide_True by done. reflexivity.
    + rewrite decide_False by done. lia.
Qed.

Lemma service_score_is_table (a : PatientAttributes) :
  PatientService.calculate_stroke_risk (attributes_dict a) = Ok (table_score a).
Proof.
  destruct (attributes_dict_lookup a) as (Hage & Hht & Hhd & Hgl & Hbmi & Hsm & Hst).
  unfold PatientService.calculate_stroke_risk, dict_get.
  rewrite Hage, Hht, Hhd, Hgl, Hbmi, Hsm, Hst.
  unfold table_score.
  destruct a as [age ht hd gl bmi sm st]; simpl attr_age; simpl attr_hypertension;
    simpl attr_heart_disease; simpl attr_avg_glucose_level; simpl attr_bmi;
    simpl attr_smoking_status; simpl attr_stroke.
  cbv zeta.
  assert (Hflag : ∀ (o : option Z) w score,
     (if py_eq (default (PInt 0) (PInt <$> o)) (PInt 1) then score + w else score)
     = score + points (flag_points w) o).
  { intros o w score. destruct o as [z|]; simpl default.
    - apply flag_eq_one.
    - simpl. lia. }
  assert (Hsmoke : ∀ score,
     (if py_eq (default (PStr "Unknown") (PStr <$> sm)) (PStr "Smokes") then score + 10
      else if py_eq (default (PStr "Unknown") (PStr <$> sm)) (PStr "Formerly smoked")
           then score + 5 else score) = score + points smoking_points sm).
  { intros score. destruct sm as [s|]; simpl default.
    - apply smoking_tier.
    - simpl. lia. }
  assert (Hage' : ∀ {B} (k : Z → result B) score,
    (above_hi <~ py_gt_int (default (PInt 0) (PInt <$> age)) 60;
     score' <~ (if above_hi then Ok (score + 30)
                else above_lo <~ py_gt_int (default (PInt 0) (PInt <$> age)) 45;
                     Ok (if above_lo then score + 15 else score));
     k score') = k (score + points age_points age)).
  { intros B k score. destruct age as [z|]; simpl default.
    - rewrite tier_int, age_points_ltb. reflexivity.
    - rewrite tier_int. simpl. f_equal; lia. }
  assert (Hfl : ∀ {B} (o : option Q) hi lo p_hi p_lo (k : Z → result B) score,
    0 ≤ lo → lo ≤ hi →
    (above_hi <~ py_gt_int (default (PInt 0) (PFloat <$> o)) hi;
     score' <~ (if above_hi then Ok (score + p_hi)
                else above_lo <~ py_gt_int (default (PInt 0) (PFloat <$> o)) lo;
                     Ok (if above_lo then score + p_lo else score));
     k score')
    = k (score + points (λ q, if Qlt_le_dec (inject_Z hi) q then p_hi
                 else if Qlt_le_dec (inject_Z lo) q then p_lo else 0) o)).
  { intros B o hi lo p_hi p_lo k score H1 H2. destruct o as [q|]; simpl default.
    - apply tier_float.
    - rewrite tier_int. simpl.
      rewrite (proj2 (Z.ltb_ge hi 0)) by lia. rewrite (proj2 (Z.ltb_ge lo 0)) by lia.
      f_equal; lia. }
  rewrite Hage'. rewrite !Hflag.
  rewrite (Hfl _ gl 150 120 15 8) by lia.
  rewrite (Hfl _ bmi 30 25 10 5) by lia.
  rewrite Hsmoke, Hflag.
  f_equal. unfold glucose_points, bmi_points. lia.
Qed.

Lemma record_score_is_service_score (patient_data : gmap string pyval) :
  PatientRecord.calculate_stroke_risk patient_data
  = PatientService.calculate_stroke_risk patient_data.
Proof. reflexivity. Qed.

(** C1. For every patient in the documented domain (typed attributes, any of
    them possibly absent) [calculate_stroke_risk], in the service and in the
    model class, returns the sum of the fixed additive table clamped at 100;
    at the boundaries, age 45 adds 0 and age 60 adds 15, glucose 120 adds 0
    and glucose 150 adds 8, BMI 25 adds 0 and BMI 30 adds 5. *)
Theorem calculate_stroke_risk_is_additive_table (a : PatientAttributes) :
  PatientService.calculate_stroke_risk (attributes_dict a) = Ok (table_score a)
  ∧ PatientRecord.calculate_stroke_risk (attributes_dict a) = Ok (table_score a)
  ∧ PatientService.calculate_stroke_risk {[ "age" := PInt 45 ]} = Ok 0
  ∧ PatientService.calculate_stroke_risk {[ "age" := PInt 60 ]} = Ok 15
  ∧ PatientService.calculate_stroke_risk {[ "avg_glucose_level" := PFloat 120 ]} = Ok 0
  ∧ PatientService.calculate_stroke_risk {[ "avg_glucose_level" := PFloat 150 ]} = Ok 8
  ∧ PatientService.calculate_stroke_risk {[ "bmi" := PFloat 25 ]} = Ok 0
  ∧ PatientService.calculate_stroke_risk {[ "bmi" := PFloat 30 ]} = Ok 5.
Proof.
  split; [apply service_score_is_table|].
  split; [rewrite record_score_is_service_score; apply service_score_is_table|].
  repeat split; vm_compute; reflexivity.
Qed.

(** *** Classification *)

Lemma get_risk_level_cases (s : Z) :
  (50 ≤ s ∧ PatientService.get_risk_level s = "high")
  ∨ (25 ≤ s < 50 ∧ PatientService.get_risk_level s = "medium")
  ∨ (s < 25 ∧ PatientService.get_risk_level s = "low").
Proof.
  unfold PatientService.get_risk_level.
  destruct (Z.leb_spec 50 s); [left; done|].
  destruct (Z.leb_spec 25 s); [right; left; split; [lia|done]|].
  right; right; done.
Qed.

Lemma get_risk_level_with_monotone (hi lo s1 s2 : Z) :
  lo ≤ hi → s1 ≤ s2 →
  tier_rank (PatientRecord.get_risk_level_with hi lo s1)
  ≤ tier_rank (PatientRecord.get_risk_level_with hi lo s2).
Proof.
  intros Hth Hle. unfold PatientRecord.get_risk_level_with.
  destruct (Z.leb_spec hi s1), (Z.leb_spec hi s2),
           (Z.leb_spec lo s1), (Z.leb_spec lo s2);
    change (tier_rank "high") with 2; change (tier_rank "medium") with 1;
    change (tier_rank "low") with 0; lia.
Qed.

(** C3. [get_risk_level] is a total step function of the integer score:
    "high" exactly from 50 up, "medium" exactly on 25..49, "low" exactly
    below 25, the same in the service and, with the default configuration,
    in the model class; and a lower score never gets a higher tier. *)
Theorem get_risk_level_step_monotone (s1 s2 : Z) (Hlt : s1 < s2) :
  (PatientService.get_risk_level s1 = "high" ↔ 50 ≤ s1)
  ∧ (PatientService.get_risk_level s1 = "medium" ↔ 25 ≤ s1 < 50)
  ∧ (PatientService.get_risk_level s1 = "low" ↔ s1 < 25)
  ∧ PatientRecord.get_risk_level s1 = PatientService.get_risk_level s1
  ∧ tier_rank (PatientService.get_risk_level s1)
    ≤ tier_rank (PatientService.get_risk_level s2).
Proof.
  split_and!.
  - destruct (get_risk_level_cases s1) as [[? ->]|[[? ->]|[? ->]]];
      split; intros; (done || lia).
  - destruct (get_risk_level_cases s1) as [[? ->]|[[? ->]|[? ->]]];
      split; intros; (done || lia).
  - destruct (get_risk_level_cases s1) as [[? ->]|[[? ->]|[? ->]]];
      split; intros; (done || lia).
  - reflexivity.
  - apply (get_risk_level_with_monotone 50 25 s1 s2); lia.
Qed.

Lemma get_risk_level_step_monotone_witness :
  24 < 25
  ∧ tier_rank (PatientService.get_risk_level 24)
    ≤ tier_rank (PatientService.get_risk_level 25).
Proof.
  split; [lia|].
  apply (get_risk_level_step_monotone 24 25). lia.
Defined.

(** *** Updating a patient: what a patch leaves alone *)

Section PatientUpdate.
Context `{PyLib}.







(** Names that are not attributes of a patient are skipped. *)







End PatientUpdate.


(** C2. A patch that changes only [stroke] is stored, and the call succeeds,
    but the derived fields are not recomputed: the stored [stroke_risk] stays
    0 and [risk_level] stays "low" although the scoring formula on the stored
    record gives 30, which classifies as "medium". *)
Theorem update_stroke_leaves_risk_stale `{PyLib} (now : Z) :
  ∃ s' row,
    PatientService.update_patient now (session (world_of example_db)) (PInt 1)
      {[ "stroke" := PInt 1 ]} = (s', Ok true)
    ∧ patients (store s') = [row]
    ∧ column example_patient "stroke" = PInt 0
    ∧ column row "stroke" = PInt 1
    ∧ column row "stroke_risk" = PInt 0
    ∧ column row "risk_level" = PStr "low"
    ∧ PatientService.calculate_stroke_risk row = Ok 30
    ∧ PatientService.get_risk_level 30 = "medium".
Proof.
  eexists _, _. split_and!; [vm_compute; reflexivity|..]; vm_compute; reflexivity.
Qed.


(** *** The session after a failed flush *)

Lemma flush_snoc (now : Z) (db : Database) (l : list change) (c : change) :
  flush now db (l ++ [c])
  = match flush now db l with
    | Some db' => apply_change now db' c
    | None => None
    end.
Proof.
  revert db. induction l as [|c' l IH]; intros db; simpl.
  - by destruct (apply_change now db c).
  - destruct (apply_change now db c'); [apply IH|done].
Qed.

(** Once a commit has failed, every later commit raises until the session
    is rolled back, and the database stays as it was. *)
Lemma commit_after_failed_commit (now now' : Z) (s s1 : Session) (e : exn)
    (c : change) :
  inactive s = false →
  session_commit now s = (s1, Raise e) →
  session_commit now' (session_record c s1)
  = (session_record c s1, Raise PendingRollbackError)
  ∧ store s1 = store s.
Proof.
  unfold session_commit. intros ->.
  destruct (flush now (store s) (pending s)); intros [= <- <-]. done.
Qed.

(** *** Logging in *)

Section Login.
Context `{PyLib}.

Lemma last_login_keeps_security_logs (now : Z) (w : World) (id : pyval) :
  pending (session w) = [] →
  security_logs (sql (UserOperations.update_last_login now w id))
  = security_logs (sql w)
  ∧ pending (session (UserOperations.update_last_login now w id)) = [].
Proof.
  intros Hfresh. unfold UserOperations.update_last_login.
  destruct (use_mongodb_users w).
  { destruct id; try done. destruct (object_id s); done. }
  destruct (List.find (has_id id) (users (sql w))) as [user|]; [|done].
  unfold session_commit, session_record; simpl. rewrite Hfresh; simpl.
  destruct (inactive (session w)); done.
Qed.

(** [login] never writes the table [security_logs]. *)
Lemma login_keeps_security_logs (now : Z) (w : World) (request : login_request) :
  pending (session w) = [] →
  security_logs (sql (fst (AuthRoutes.login now w request)))
  = security_logs (sql w).
Proof.
  intros Hfresh. unfold AuthRoutes.login.
  destruct (request_body request) as [| |data]; simpl.
  - destruct (content_type_is_json request); done.
  - done.
  - repeat (match goal with
            | |- context [if ?b then _ else _] => destruct b; simpl; try done
            end).
    destruct (UserOperations.find_by_username w _) as [user|]; simpl; [|done].
    destruct (check_password user _) as [[]|]; simpl; try done.
    destruct (is_active user); simpl; [|done].
    destruct (last_login_keeps_security_logs now w (user_id user) Hfresh) as [Hl _].
    exact Hl.
Qed.




(** A request that does not reach the lookup is answered without a look at
    the identities. *)
Lemma login_before_lookup (now now' : Z) (w w' : World) (request : login_request) :
  AuthRoutes.presented request = None →
  snd (AuthRoutes.login now w request) = snd (AuthRoutes.login now' w' request).
Proof.
  unfold AuthRoutes.presented, AuthRoutes.login.
  destruct (request_body request) as [| |data].
  - destruct (content_type_is_json request); done.
  - done.
  - cbv zeta.
    destruct (bool_decide (data = ∅)); [done|].
    destruct (negb (truthy _) || negb (truthy _)); [done|].
    destruct (negb (py_eq _ _)); done.
Qed.

End Login.

(** C4. Here the four outcomes of [login] are run on a database with an
    active identity "alice" and a deactivated identity "bob" and an empty
    table [security_logs]: after a successful login, after an unknown
    username, after a wrong password and after a login to the deactivated
    account the table is still empty.  The first three write one line to the
    application logger, the fourth writes nothing at all. *)
Theorem login_appends_no_security_log :
  let outcome (name password : string) :=
    AuthRoutes.login 9 (world_of users_db) (login_with name password) in
  let entries (r : World * response) := security_logs (sql (fst r)) in
  security_logs users_db = []
  ∧ (status (snd (outcome "alice" "Passw0rd1")) = 200
     ∧ entries (outcome "alice" "Passw0rd1") = [])
  ∧ (status (snd (outcome "carol" "Passw0rd1")) = 401
     ∧ entries (outcome "carol" "Passw0rd1") = [])
  ∧ (status (snd (outcome "alice" "guess")) = 401
     ∧ entries (outcome "alice" "guess") = []
     ∧ app_log (fst (outcome "alice" "guess"))
       = [SecurityEventLine PNone "LOGIN_FAILED"
            "Failed login attempt for username: alice" (PStr "203.0.113.7")])
  ∧ (snd (outcome "bob" "Passw0rd1") = message_response 401 "Account is deactivated"
     ∧ entries (outcome "bob" "Passw0rd1") = []
     ∧ app_log (fst (outcome "bob" "Passw0rd1")) = []).
Proof. vm_compute. repeat split; reflexivity. Qed.

(** C9. A self-registration whose patient record the database refuses
    (the JSON [null] for [ever_married], a [NOT NULL] column): the identity
    has been committed, the patient insertion raises, the compensating
    [delete] is committed on a session that was not rolled back and raises in
    turn, and the handler answers 500 with the identity still stored and no
    patient record.  The same body with ["ever_married": "Yes"] registers. *)
Theorem self_register_leaves_orphan_identity :
  let good :=
    PatientRoutes.self_register_patient 5 (world_of empty_db) registration_request in
  let bad :=
    PatientRoutes.self_register_patient 5 (world_of empty_db) registration_with_null in
  status (snd good) = 201
  ∧ snd bad = message_response 500 "Internal server error"
  ∧ username <$> users (sql (fst bad)) = ["alice"]
  ∧ patients (sql (fst bad)) = []
  ∧ app_log (fst bad) = [ErrorLine "Self registration error" PendingRollbackError].
Proof. vm_compute. repeat split; reflexivity. Qed.



(** *** Unique usernames and emails *)

Lemma user_unique_no_match (table : list User) (u : User) :
  user_unique table u = true →
  List.filter (has_username (username u)) table = []
  ∧ List.filter (has_email (email u)) table = [].
Proof.
  unfold user_unique. induction table as [|u' table IH]; [done|]. simpl.
  intros [[Hname Hmail]%andb_prop Hrest]%andb_prop.
  destruct (IH Hrest) as [IHn IHe].
  unfold has_username at 1, has_email at 1.
  apply negb_true_iff in Hname, Hmail. rewrite Hname, Hmail. done.
Qed.

Lemma user_unique_taken (table : list User) (u u' : User) :
  In u table →
  username u' = username u ∨ email u' = email u →
  user_unique table u' = false.
Proof.
  intros Hin Hsame. unfold user_unique. apply not_true_is_false.
  intros Hall. rewrite forallb_forall in Hall. specialize (Hall u Hin).
  apply andb_prop in Hall as [Hname Hmail].
  apply negb_true_iff in Hname, Hmail.
  apply String.eqb_neq in Hname, Hmail.
  destruct Hsame; congruence.
Qed.

Lemma find_match {A : Type} (f : A → bool) (l : list A) (x : A) :
  In x l → f x = true → is_Some (List.find f l).
Proof.
  intros Hin Hf. destruct (List.find f l) eqn:Hfind; [done|].
  by rewrite (List.find_none f l Hfind x Hin) in Hf.
Qed.

Section Identities.
Context `{PyLib}.

Lemma of_document_fields (doc : N * User) :
  username (UserOperations.of_document doc) = username (snd doc)
  ∧ email (UserOperations.of_document doc) = email (snd doc).
Proof. done. Qed.

Lemma filter_documents (f : User → bool) (docs : list (N * User)) :
  (∀ doc, f (UserOperations.of_document doc) = f (snd doc)) →
  length (List.filter f (UserOperations.of_document <$> docs))
  = length (List.filter f (snd <$> docs)).
Proof.
  intros Hf. induction docs as [|doc docs IH]; [done|].
  rewrite !fmap_cons. simpl List.filter. rewrite Hf.
  destruct (f (snd doc)); simpl; [f_equal|]; exact IH.
Qed.

(** What a successful [create_user] has done: the stored identity carries
    the username and the email, no identity stored before it carried either,
    and it is the last row of the backend in use. *)
Lemma create_user_stored (now : Z) (w w1 : World) (created : User)
    (username email password role first_name last_name : string)
    (phone specialization license_number : pyval) :
  UserOperations.create_user now w username email password role first_name
    last_name phone specialization license_number = (w1, Some created) →
  ∃ (before : list User) (stored : User),
    has_username username stored = true ∧ has_email email stored = true
    ∧ user_unique before stored = true
    ∧ ((use_mongodb_users w = true
        ∧ ∃ oid, w1 = with_mongo_users (mongo_users w ++ [(oid, stored)]) w
                 ∧ before = snd <$> mongo_users w
                 ∧ created = UserOperations.of_document (oid, stored))
       ∨ (use_mongodb_users w = false
          ∧ ∃ db0 row, w1 = with_session
                              {| store := {| users := before ++ [row];
                                             patients := patients db0;
                                             security_logs := security_logs db0 |};
                                 pending := []; inactive := false |} w
                       ∧ before = users db0
                       ∧ has_username username row = true
                       ∧ has_email email row = true)).
Proof.
  unfold UserOperations.create_user.
  destruct (use_mongodb_users w) eqn:Hmongo.
  - destruct (user_unique _ _) eqn:Hunique; intros [= <- <-].
    eexists _, _. split_and!; [| |exact Hunique|].
    + apply String.eqb_refl.
    + apply String.eqb_refl.
    + left. split; [done|]. eexists. split_and!; reflexivity.
  - unfold session_commit, session_record; simpl.
    destruct (inactive (session w)); [intros [=]|].
    rewrite flush_snoc.
    destruct (flush now (store (session w)) (pending (session w))) as [db0|];
      [|intros [=]].
    simpl. destruct (user_unique (users db0) _) eqn:Hunique; intros [= <- <-].
    eexists _, _. split_and!; [| |exact Hunique|].
    + apply String.eqb_refl.
    + apply String.eqb_refl.
    + right. split; [done|]. eexists db0, _. split_and!; [reflexivity|done|..].
      * apply String.eqb_refl.
      * apply String.eqb_refl.
Qed.

(** A registration whose username or email is taken is answered 409 and
    stores nothing. *)
Lemma register_duplicate (now : Z) (w : World) (remote_addr : pyval)
    (data : gmap string pyval)
    (username email password role first_name last_name : string) :
  AuthRoutes.register_fields data
  = Next (username, email, password, role, first_name, last_name) →
  is_Some (UserOperations.find_by_username w username)
  ∨ is_Some (UserOperations.find_by_email w email) →
  status (snd (AuthRoutes.register now w remote_addr data)) = 409
  ∧ fst (AuthRoutes.register now w remote_addr data)
    = with_session (session_remove (session w)) w.
Proof.
  intros Hfields Htaken.
  unfold AuthRoutes.register, AuthRoutes.register_checks.
  rewrite Hfields. cbn [step_then].
  destruct (bool_decide (is_Some (UserOperations.find_by_username w username)))
    eqn:Hname; simpl; [done|].
  destruct (bool_decide (is_Some (UserOperations.find_by_email w email)))
    eqn:Hmail; simpl; [done|].
  apply bool_decide_eq_false in Hname, Hmail. tauto.
Qed.

Lemma find_by_username_taken (w : World) (name : string) :
  (0 < length (List.filter (has_username name) (identities w)))%nat →
  is_Some (UserOperations.find_by_username w name).
Proof.
  unfold identities, UserOperations.find_by_username.
  destruct (use_mongodb_users w).
  - intros Hlen. rewrite filter_documents in Hlen by done.
    destruct (List.filter _ (snd <$> mongo_users w)) as [|u rest] eqn:Hfilter;
      [simpl in Hlen; lia|].
    assert (Hin : In u (List.filter (has_username name) (snd <$> mongo_users w)))
      by (rewrite Hfilter; by left).
    apply filter_In in Hin as [Hin Hu].
    apply in_map_iff in Hin as (doc & <- & Hdoc).
    rewrite fmap_is_Some.
    by apply (find_match (λ doc, has_username name (snd doc)) _ doc).
  - intros Hlen. unfold filter_by_username.
    destruct (List.filter _ (users (sql w))) as [|u rest] eqn:Hfilter;
      [simpl in Hlen; lia|].
    assert (Hin : In u (List.filter (has_username name) (users (sql w))))
      by (rewrite Hfilter; by left).
    apply filter_In in Hin as [Hin Hu]. by apply (find_match _ _ u).
Qed.

Lemma find_by_email_taken (w : World) (address : string) :
  (0 < length (List.filter (has_email address) (identities w)))%nat →
  is_Some (UserOperations.find_by_email w address).
Proof.
  unfold identities, UserOperations.find_by_email.
  destruct (use_mongodb_users w).
  - intros Hlen. rewrite filter_documents in Hlen by done.
    destruct (List.filter _ (snd <$> mongo_users w)) as [|u rest] eqn:Hfilter;
      [simpl in Hlen; lia|].
    assert (Hin : In u (List.filter (has_email address) (snd <$> mongo_users w)))
      by (rewrite Hfilter; by left).
    apply filter_In in Hin as [Hin Hu].
    apply in_map_iff in Hin as (doc & <- & Hdoc).
    rewrite fmap_is_Some.
    by apply (find_match (λ doc, has_email address (snd doc)) _ doc).
  - intros Hlen. unfold filter_by_email.
    destruct (List.filter _ (users (sql w))) as [|u rest] eqn:Hfilter;
      [simpl in Hlen; lia|].
    assert (Hin : In u (List.filter (has_email address) (users (sql w))))
      by (rewrite Hfilter; by left).
    apply filter_In in Hin as [Hin Hu]. by apply (find_match _ _ u).
Qed.

Lemma filter_last_only {A : Type} (f : A → bool) (before : list A) (x : A) :
  List.filter f before = [] → f x = true →
  length (List.filter f (before ++ [x])) = 1%nat.
Proof. intros Hnone Hx. rewrite List.filter_app, Hnone. simpl. by rewrite Hx. Qed.

End Identities.

(** C7. After a successful [create_user] a second [create_user] with the same
    username or the same email returns [None] and leaves the whole state as
    it was; exactly one stored identity has the username and exactly one has
    the email; and a registration request with that username or email, valid
    in its fields, is answered 409 and leaves the identities and the database
    as they were.  This holds for the relational and for the document
    backend. *)
Theorem duplicate_identity_is_rejected `{PyLib} (now now' : Z) (w w1 : World)
    (created : User)
    (username email password role first_name last_name : string)
    (phone specialization license_number : pyval)
    (username' email' password' role' first_name' last_name' : string)
    (phone' specialization' license_number' : pyval)
    (Hcreated :
       UserOperations.create_user now w username email password role first_name
         last_name phone specialization license_number = (w1, Some created))
    (Hsame : username' = username ∨ email' = email) :
  UserOperations.create_user now' w1 username' email' password' role'
    first_name' last_name' phone' specialization' license_number' = (w1, None)
  ∧ length (List.filter (has_username username) (identities w1)) = 1%nat
  ∧ length (List.filter (has_email email) (identities w1)) = 1%nat
  ∧ ∀ (remote_addr : pyval) (data : gmap string pyval),
      AuthRoutes.register_fields data
      = Next (username', email', password', role', first_name', last_name') →
      status (snd (AuthRoutes.register now' w1 remote_addr data)) = 409
      ∧ identities (fst (AuthRoutes.register now' w1 remote_addr data))
        = identities w1
      ∧ sql (fst (AuthRoutes.register now' w1 remote_addr data)) = sql w1.
Proof.
  apply create_user_stored in Hcreated
    as (before & stored & Hname & Hmail & Hunique & Hbackend).
  destruct (user_unique_no_match _ _ Hunique) as [Hnone_name Hnone_mail].
  apply String.eqb_eq in Hname, Hmail.
  rewrite Hname in Hnone_name. rewrite Hmail in Hnone_mail.
  assert (Hcounts :
    length (List.filter (has_username username) (identities w1)) = 1%nat
    ∧ length (List.filter (has_email email) (identities w1)) = 1%nat).
  { destruct Hbackend as [[Hmongo (oid & -> & -> & _)]
                         |[Hsql (db0 & row & -> & -> & Hrow_name & Hrow_mail)]];
      unfold identities; simpl; rewrite ?Hmongo, ?Hsql.
    - rewrite !filter_documents by done. rewrite fmap_app. simpl.
      split; apply filter_last_only; try done.
      + unfold has_username. rewrite Hname. apply String.eqb_refl.
      + unfold has_email. rewrite Hmail. apply String.eqb_refl.
    - unfold sql; simpl. split; by apply filter_last_only. }
  split_and!; [|apply Hcounts..|].
  - destruct Hbackend as [[Hmongo (oid & -> & -> & _)]
                         |[Hsql (db0 & row & -> & -> & Hrow_name & Hrow_mail)]];
      unfold UserOperations.create_user; simpl; rewrite ?Hmongo, ?Hsql.
    + rewrite (user_unique_taken _ stored); [done| |].
      * rewrite fmap_app. apply in_or_app. right. by left.
      * simpl. rewrite Hname, Hmail. exact Hsame.
    + unfold session_commit, session_record; simpl.
      rewrite (user_unique_taken _ row); [done| |].
      * apply in_or_app. right. by left.
      * apply String.eqb_eq in Hrow_name, Hrow_mail. simpl.
        rewrite Hrow_name, Hrow_mail. exact Hsame.
  - intros remote_addr data Hfields.
    destruct (register_duplicate now' w1 remote_addr data _ _ _ _ _ _ Hfields)
      as [Hstatus ->].
    + destruct Hsame as [-> | ->].
      * left. apply find_by_username_taken. destruct Hcounts as [-> _]. lia.
      * right. apply find_by_email_taken. destruct Hcounts as [_ ->]. lia.
    + split_and!; [exact Hstatus|done|done].
Qed.

Lemma duplicate_identity_is_rejected_witness :
  let first :=
    UserOperations.create_user 5 (world_of empty_db) "alice" "alice@example.org"
      "Passw0rd1" "patient" "Alice" "Archer" PNone PNone PNone in
  (username <$> users (sql (fst first))) = ["alice"]
  ∧ UserOperations.create_user 6 (fst first) "alice" "other@example.org"
      "Passw0rd2" "patient" "Al" "Archer" PNone PNone PNone = (fst first, None).
Proof.
  intros first. split; [reflexivity|].
  refine (proj1 (duplicate_identity_is_rejected (H := example_lib) 5 6
                   (world_of empty_db) (fst first) _
                   "alice" "alice@example.org" "Passw0rd1" "patient" "Alice"
                   "Archer" PNone PNone PNone
                   "alice" "other@example.org" "Passw0rd2" "patient" "Al"
                   "Archer" PNone PNone PNone _ (or_introl eq_refl))).
  vm_compute. reflexivity.
Defined.

(** *** Cancelling an appointment *)

Section Appointments.
Context `{PyLib}.









End Appointments.




(** *** Booking and rescheduling *)

Section Booking.
Context `{PyLib}.

Definition past_booking : response :=
  message_response 400 "Cannot book appointments in the past".

Definition past_reschedule : response :=
  message_response 400 "Cannot reschedule to a past date".

Lemma truthy_text (text : string) : text ≠ "" → truthy (PStr text) = true.
Proof.
  intros Hne. simpl. apply negb_true_iff. by apply String.eqb_neq.
Qed.

Lemma check_permissions_outcome (current_user : User)
    (appointment : gmap string pyval) :
  AppointmentRoutes.check_permissions current_user appointment = Next tt
  ∨ AppointmentRoutes.check_permissions current_user appointment
    = Reply (message_response 403 "Access denied")
  ∨ ∃ e, AppointmentRoutes.check_permissions current_user appointment = Throw e.
Proof.
  unfold AppointmentRoutes.check_permissions, dict_item.
  destruct (String.eqb (role current_user) "patient");
    destruct (String.eqb (role current_user) "doctor");
    destruct (appointment !! "patient_id"); destruct (appointment !! "doctor_id");
    simpl; eauto;
    repeat (match goal with
            | |- context [negb ?b] => destruct b; simpl; eauto
            end).
Qed.

(** What [book_appointment] does with a body whose fields are there and
    parse. *)
Lemma book_appointment_dated (now today day : Z) (w : World) (current_user : User)
    (data : gmap string pyval) :
  dated data day →
  truthy (dict_get data "doctor_id" PNone) = true →
  truthy (dict_get data "reason" PNone) = true →
  AppointmentRoutes.book_appointment now today w current_user data
  = if day <? today then (w, past_booking)
    else
      match AppointmentMongoDB.create_appointment now w
              (user_id current_user)
              (dict_get data "doctor_id" PNone)
              (dict_get data "appointment_date" PNone)
              (dict_get data "appointment_time" PNone)
              (sanitize_input (dict_get data "reason" PNone))
              (dict_get data "urgency" (PStr "routine"))
              (PStr "scheduled") PNone with
      | (w, Raise e) =>
          AppointmentRoutes.leave "Book appointment error" w (Throw e)
      | (w, Ok appointment) =>
          AppointmentRoutes.leave "Book appointment error" w
            (Next {| status := 201;
                     body :=
                       [("message", JVal (PStr "Appointment booked successfully"));
                        ("appointment",
                         JObj ((λ key, (key, JVal (column appointment key)))
                               <$> ["id"; "patient_id"; "doctor_id";
                                    "appointment_date"; "appointment_time";
                                    "reason"; "urgency"; "status"]))] |})
      end.
Proof.
  intros (date_text & time_text & minutes & Hdate & Hdate_ne & Hday
          & Htime & Htime_ne & Hminutes) Hdoctor Hreason.
  unfold AppointmentRoutes.book_appointment, first_falsy. simpl List.find.
  rewrite Hdoctor, Hreason, Hdate, Htime.
  rewrite !truthy_text by done. simpl.
  rewrite Hday, Hminutes. simpl.
  destruct (day <? today); reflexivity.
Qed.

Lemma reschedule_appointment_dated (now today day : Z) (w : World)
    (current_user : User) (appointment_id : string) (data : gmap string pyval) :
  dated data day →
  (day < today
   ∧ AppointmentRoutes.reschedule_appointment now today w current_user
       appointment_id data = (w, past_reschedule))
  ∨ (today ≤ day
     ∧ status (snd (AppointmentRoutes.reschedule_appointment now today w
                      current_user appointment_id data)) ≠ 400).
Proof.
  intros (date_text & time_text & minutes & Hdate & Hdate_ne & Hday
          & Htime & Htime_ne & Hminutes).
  unfold AppointmentRoutes.reschedule_appointment.
  rewrite Hdate, Htime. rewrite !truthy_text by done. simpl.
  rewrite Hday, Hminutes. simpl.
  destruct (Z.ltb_spec day today) as [Hlt|Hge]; simpl; [left; done|].
  right. split; [done|].
  destruct (AppointmentMongoDB.get_appointment w appointment_id)
    as [w1 [appointment|]]; simpl; [|done].
  destruct (check_permissions_outcome current_user appointment)
    as [-> | [-> | [e ->]]]; simpl; try done.
  destruct (AppointmentMongoDB.update_appointment now w1 appointment_id _)
    as [w2 []]; simpl; done.
Qed.

End Booking.

(** C5. For a body whose required fields are there and whose date and time
    parse, booking is answered with the past-date response exactly when the
    day is strictly before today, and then nothing in the state changes; from
    today on, with the collection connected, it is answered 201 and exactly
    one document, scheduled for the requested date, is appended.
    Rescheduling checks the new date in the same way, before it looks the
    appointment up, and changes nothing when it refuses. *)
Theorem past_dates_are_refused `{PyLib} (now today day : Z) (w : World)
    (current_user : User) (appointment_id : string) (data : gmap string pyval)
    (Hdated : dated data day)
    (Hdoctor : truthy (dict_get data "doctor_id" PNone) = true)
    (Hreason : truthy (dict_get data "reason" PNone) = true) :
  let booked := AppointmentRoutes.book_appointment now today w current_user data in
  let moved :=
    AppointmentRoutes.reschedule_appointment now today w current_user
      appointment_id data in
  (snd booked = message_response 400 "Cannot book appointments in the past"
   ↔ day < today)
  ∧ (day < today → fst booked = w)
  ∧ (today ≤ day →
     ∀ collection, appointments w = Some collection →
       status (snd booked) = 201
       ∧ ∃ oid doc,
           appointments (fst booked) = Some (collection ++ [(oid, doc)])
           ∧ doc !! "appointment_date" = data !! "appointment_date"
           ∧ doc !! "status" = Some (PStr "scheduled"))
  ∧ (snd moved = message_response 400 "Cannot reschedule to a past date"
     ↔ day < today)
  ∧ (day < today → fst moved = w).
Proof.
  intros booked moved.
  assert (Hbooked := book_appointment_dated now today day w current_user data
                       Hdated Hdoctor Hreason).
  fold booked in Hbooked.
  assert (Hmoved := reschedule_appointment_dated now today day w current_user
                      appointment_id data Hdated).
  fold moved in Hmoved.
  split_and!.
  - rewrite Hbooked. destruct (Z.ltb_spec day today) as [Hlt|Hge]; [done|].
    split; [|lia]. intros Hresponse. exfalso.
    unfold AppointmentMongoDB.create_appointment in Hresponse.
    destruct (appointments w); simpl in Hresponse; discriminate Hresponse.
  - intros Hlt. rewrite Hbooked. by rewrite (proj2 (Z.ltb_lt day today) Hlt).
  - intros Hge collection Hcollection. rewrite Hbooked.
    rewrite (proj2 (Z.ltb_ge day today)) by lia.
    unfold AppointmentMongoDB.create_appointment. rewrite Hcollection. simpl.
    split; [done|]. eexists _, _. split; [reflexivity|].
    destruct Hdated as (date_text & _ & _ & Hdate & _).
    split; [|done].
    rewrite lookup_insert_ne by done. rewrite lookup_insert_ne by done.
    rewrite lookup_insert_eq. unfold dict_get in *.
    destruct (data !! "appointment_date"); simpl in *; [done|discriminate].
  - destruct Hmoved as [[Hlt ->]|[Hge Hstatus]]; [done|].
    split; [|lia]. intros Hresponse. rewrite Hresponse in Hstatus. done.
  - intros Hlt. destruct Hmoved as [[_ ->]|[Hge _]]; [done|lia].
Qed.

Lemma past_dates_are_refused_witness :
  dated (booking_on "739099") 739099
  ∧ fst (AppointmentRoutes.book_appointment 50 739100 appointments_world alice
           (booking_on "739099")) = appointments_world.
Proof.
  assert (Hdated : dated (H := example_lib) (booking_on "739099") 739099).
  { exists "739099", "630", 630. split_and!; (reflexivity || discriminate). }
  split; [exact Hdated|].
  refine (proj1 (proj2 (past_dates_are_refused (H := example_lib) 50 739100 739099
                          appointments_world alice "1" (booking_on "739099")
                          Hdated eq_refl eq_refl)) _).
  reflexivity.
Defined.

(** ** Further properties of the code *)

(** *** The scorer on arbitrary dicts *)

Lemma tier_any {B : Type} (v : pyval) (hi lo p_hi p_lo score : Z)
    (k : Z → result B) :
  (above_hi <~ py_gt_int v hi;
   score' <~ (if above_hi then Ok (score + p_hi)
              else above_lo <~ py_gt_int v lo;
                   Ok (if above_lo then score + p_lo else score));
   k score')
  = if is_number v
    then k (score + match py_gt_int v hi, py_gt_int v lo with
                    | Ok true, _ => p_hi
                    | _, Ok true => p_lo
                    | _, _ => 0
                    end)
    else Raise TypeError.
Proof.
  destruct v; simpl; try done.
  - destruct (hi <? Z.b2z b); simpl; [done|].
    destruct (lo <? Z.b2z b); simpl; [done|]. by rewrite Z.add_0_r.
  - destruct (hi <? z); simpl; [done|].
    destruct (lo <? z); simpl; [done|]. by rewrite Z.add_0_r.
  - destruct (Qltb (inject_Z hi) q); simpl; [done|].
    destruct (Qltb (inject_Z lo) q); simpl; [done|]. by rewrite Z.add_0_r.
Qed.

(** X3. [calculate_stroke_risk] on any dict: when the values it orders
    ([age], [avg_glucose_level], [bmi], each 0 when absent) are numbers it
    returns a score between 0 and 100; otherwise it raises [TypeError]. *)
Theorem calculate_stroke_risk_range (patient_data : gmap string pyval) :
  let numeric (key : string) := is_number (dict_get patient_data key (PInt 0)) in
  (numeric "age" && numeric "avg_glucose_level" && numeric "bmi" = true
   ∧ ∃ score, PatientService.calculate_stroke_risk patient_data = Ok score
              ∧ 0 ≤ score ≤ 100)
  ∨ (numeric "age" && numeric "avg_glucose_level" && numeric "bmi" = false
     ∧ PatientService.calculate_stroke_risk patient_data = Raise TypeError).
Proof.
  intros numeric. unfold numeric, PatientService.calculate_stroke_risk.
  cbv zeta. rewrite tier_any.
  destruct (is_number (dict_get patient_data "age" (PInt 0))); [|right; done].
  rewrite tier_any.
  destruct (is_number (dict_get patient_data "avg_glucose_level" (PInt 0)));
    [|right; done].
  rewrite tier_any.
  destruct (is_number (dict_get patient_data "bmi" (PInt 0))); [|right; done].
  left. split; [done|]. eexists. split; [reflexivity|].
  repeat match goal with
         | |- context [match ?r with Ok _ => _ | Raise _ => _ end] =>
             destruct r as [[]|]
         | |- context [if ?b then _ else _] => destruct b
         end; lia.
Qed.

(** *** Creating a patient *)


Section PatientCreate.
Context `{PyLib}.


End PatientCreate.


(** *** Updating a patient: the recomputation *)

Section PatientRecompute.
Context `{PyLib}.





End PatientRecompute.


(** *** Validation of patient data *)



Lemma as_num_is_number (v : pyval) : is_Some (as_num v) ↔ is_number v = true.
Proof. destruct v; simpl; split; (done || eauto || by intros [? ?]). Qed.







(** *** Logging in: who is given a token *)

(** X5. A request that reaches the lookup of [login] is answered 200 exactly
    when an identity with that username is found, the password checks against
    its hash and the identity is active. *)
Theorem login_succeeds_iff `{PyLib} (now : Z) (w : World) (request : login_request)
    (name : string) (password : pyval)
    (Hrequest : AuthRoutes.presented request = Some (name, password)) :
  status (snd (AuthRoutes.login now w request)) = 200
  ↔ ∃ user, UserOperations.find_by_username w name = Some user
            ∧ check_password user password = Ok true
            ∧ is_active user = true.
Proof.
  revert Hrequest. unfold AuthRoutes.presented, AuthRoutes.login.
  destruct (request_body request) as [| |data]; [done|done|].
  cbv zeta.
  destruct (bool_decide (data = ∅)); [done|].
  destruct (negb (truthy _) || negb (truthy _)); [done|].
  destruct (negb (py_eq _ _)); [done|].
  intros [= <- <-].
  destruct (UserOperations.find_by_username w _) as [user|]; cbn [and_then].
  - destruct (check_password user _) as [[]|] eqn:Hcheck; cbn [negb].
    + destruct (is_active user) eqn:Hactive; cbn [negb snd status message_response].
      * split; [intros _; eauto|done].
      * split; [done|]. intros (u & [= <-] & _ & ?). congruence.
    + split; [done|]. intros (u & [= <-] & ? & _). congruence.
    + split; [done|]. intros (u & [= <-] & ? & _). congruence.
  - split; [done|]. intros (u & ? & _). done.
Qed.

Lemma login_succeeds_iff_witness :
  AuthRoutes.presented (login_with "alice" "Passw0rd1")
  = Some ("alice", PStr "Passw0rd1")
  ∧ status (snd (AuthRoutes.login 9 (world_of users_db)
                   (login_with "alice" "Passw0rd1"))) = 200.
Proof.
  split; [reflexivity|].
  apply (login_succeeds_iff (H := example_lib) 9 (world_of users_db)
           (login_with "alice" "Passw0rd1") "alice" (PStr "Passw0rd1") eq_refl).
  exists (example_user 1 "alice" true). split_and!; reflexivity.
Defined.

(** X6. A login that is not answered 200 changes no table and no collection:
    the database, the identities and the appointments are what they were. *)
Theorem failed_login_stores_nothing `{PyLib} (now : Z) (w : World)
    (request : login_request)
    (Hfailed : status (snd (AuthRoutes.login now w request)) ≠ 200) :
  let w' := fst (AuthRoutes.login now w request) in
  sql w' = sql w ∧ mongo_users w' = mongo_users w
  ∧ identities w' = identities w ∧ appointments w' = appointments w.
Proof.
  revert Hfailed. unfold AuthRoutes.login, identities.
  destruct (request_body request) as [| |data]; cbv zeta.
  - destruct (content_type_is_json request); done.
  - done.
  - destruct (bool_decide (data = ∅)); [done|].
    destruct (negb (truthy _) || negb (truthy _)); [done|].
    destruct (negb (py_eq _ _)); [done|].
    destruct (UserOperations.find_by_username w _) as [user|]; cbn [and_then];
      [|done].
    destruct (check_password user _) as [[]|]; cbn [negb]; [|done|done].
    destruct (is_active user); cbn [negb snd status]; done.
Qed.

Lemma failed_login_stores_nothing_witness :
  status (snd (AuthRoutes.login 9 (world_of users_db) (login_with "bob" "Passw0rd1")))
  ≠ 200
  ∧ sql (fst (AuthRoutes.login 9 (world_of users_db) (login_with "bob" "Passw0rd1")))
    = users_db.
Proof.
  assert (Hfailed : status (snd (AuthRoutes.login (H := example_lib) 9
                                   (world_of users_db)
                                   (login_with "bob" "Passw0rd1"))) ≠ 200)
    by (vm_compute; discriminate).
  split; [exact Hfailed|].
  exact (proj1 (failed_login_stores_nothing (H := example_lib) 9 (world_of users_db)
                  (login_with "bob" "Passw0rd1") Hfailed)).
Defined.
